(** * Prediccion-Climatica: weather service and weekly pattern analyser

    A shallow embedding of [backend/weather_service.py] and
    [backend/weather_predictions.py].

    Conventions of the embedding:
    - Python [float] and [int] values are exact rationals ([Q]); NaN and the
      infinities are outside the model.  A comparison of a float with an
      integer literal is exact in Python, so the threshold tests below agree
      with the source on every finite value.  Float literals such as [0.1]
      and [3.6] are read as the decimals they denote.
    - A decoded JSON document is a [pyval]; a dict is an association list
      looked up from the left.
    - A Python exception is a value of [exn]; a method that can raise returns
      a [result].  Exception messages and log lines are not modelled.
    - Names are those of the source; string literals are the source's own
      (Spanish) ones. *)

From Stdlib Require Import QArith ZArith Ascii String List Lia Bool Qround Qabs.
From Stdlib Require Import DecimalString.
From stdpp Require Import gmap strings list sorting.

Set Warnings "-register-all".
Local Open Scope string_scope.
Local Open Scope list_scope.
Local Open Scope Z_scope.

(** ** Exceptions and results *)

Module Py.

Inductive exn : Type :=
| KeyError
| ValueError
| TypeError
| AttributeError
| IndexError
| OverflowError
| OSError
| Timeout            (* requests.exceptions.Timeout *)
| HTTPError          (* requests.exceptions.HTTPError *)
| ConnectionError    (* requests.exceptions.ConnectionError *)
| RequestException.  (* requests.exceptions.RequestException itself *)

Inductive result (A : Type) : Type :=
| Ok (a : A)
| Raise (e : exn).
Arguments Ok {A} a.
Arguments Raise {A} e.

Definition bind {A B} (r : result A) (k : A -> result B) : result B :=
  match r with
  | Ok a => k a
  | Raise e => Raise e
  end.

Notation "'do' x <- r ; k" := (bind r (fun x => k))
  (at level 10, x name, r at level 100, k at level 200).

(** [try: r except P: h]: the handler runs on the exceptions the clause
    names, the others propagate. *)
Definition try_except {A} (r : result A) (catches : exn -> bool)
    (h : exn -> result A) : result A :=
  match r with
  | Ok a => Ok a
  | Raise e => if catches e then h e else Raise e
  end.

(** [except (KeyError, ValueError, TypeError)] *)
Definition key_value_type (e : exn) : bool :=
  match e with
  | KeyError | ValueError | TypeError => true
  | _ => false
  end.

(** [except (ValueError, TypeError)] *)
Definition value_type (e : exn) : bool :=
  match e with
  | ValueError | TypeError => true
  | _ => false
  end.

(** [except requests.exceptions.Timeout] *)
Definition is_Timeout (e : exn) : bool :=
  match e with
  | Timeout => true
  | _ => false
  end.

(** [except requests.exceptions.RequestException]: [Timeout], [HTTPError]
    and [ConnectionError] are subclasses of it. *)
Definition is_RequestException (e : exn) : bool :=
  match e with
  | Timeout | HTTPError | ConnectionError | RequestException => true
  | _ => false
  end.

(** [except Exception] *)
Definition any_exception (e : exn) : bool := true.

(** ** Values *)

Inductive pyval : Type :=
| PNone
| PBool (b : bool)
| PNum (q : Q)
| PStr (s : string)
| PList (l : list pyval)
| PDict (d : list (string * pyval)).

Fixpoint assoc (k : string) (d : list (string * pyval)) : option pyval :=
  match d with
  | [] => None
  | (k', v) :: d' => if String.eqb k k' then Some v else assoc k d'
  end.

(** [v[key]] for a string key. *)
Definition getitem (v : pyval) (key : string) : result pyval :=
  match v with
  | PDict d =>
      match assoc key d with
      | Some x => Ok x
      | None => Raise KeyError
      end
  | _ => Raise TypeError
  end.

(** [v[0]].  A dict decoded from JSON has string keys only. *)
Definition getitem0 (v : pyval) : result pyval :=
  match v with
  | PList (x :: _) => Ok x
  | PList [] => Raise IndexError
  | PStr (String c _) => Ok (PStr (String c EmptyString))
  | PStr EmptyString => Raise IndexError
  | PDict _ => Raise KeyError
  | _ => Raise TypeError
  end.

(** [v.get(key, default)] *)
Definition get (v : pyval) (key : string) (default : pyval) : result pyval :=
  match v with
  | PDict d =>
      match assoc key d with
      | Some x => Ok x
      | None => Ok default
      end
  | _ => Raise AttributeError
  end.

(** Truth value of [v] in a condition. *)
Definition truthy (v : pyval) : bool :=
  match v with
  | PNone => false
  | PBool b => b
  | PNum q => negb (Qeq_bool q 0)
  | PStr s => negb (String.eqb s "")
  | PList l => match l with [] => false | _ => true end
  | PDict d => match d with [] => false | _ => true end
  end.

Definition is_PStr (key : string) (v : pyval) : bool :=
  match v with
  | PStr s => String.eqb s key
  | _ => false
  end.

Definition is_substring (key s : string) : bool :=
  match String.index 0 key s with
  | Some _ => true
  | None => false
  end.

(** [key in v] for a string key. *)
Definition contains (v : pyval) (key : string) : result bool :=
  match v with
  | PDict d => Ok (match assoc key d with Some _ => true | None => false end)
  | PList l => Ok (existsb (is_PStr key) l)
  | PStr s => Ok (is_substring key s)
  | _ => Raise TypeError
  end.

(** The parts of the interpreter the source relies on and this development
    does not define: the decimal parsers behind [float(str)] and [int(str)],
    [str] on values that are not strings, and the local clock behind
    [datetime.fromtimestamp] and [datetime.now]. *)
Record datetime : Type := {
  date_str : string;   (* strftime("%Y-%m-%d") *)
  hour : Z;
  weekday : Z
}.

Class Builtins : Type := {
  float_of_str : string -> option Q;
  int_of_str : string -> option Z;
  repr : pyval -> string;
  localtime : Q -> result datetime;
  now_isoformat : string   (* datetime.now().isoformat() *)
}.

(** The integer part of a number, towards zero. *)
Definition trunc (q : Q) : Z := Qnum q ÷ Zpos (Qden q).

Section Conversions.
Context `{Builtins}.

(** [float(v)] *)
Definition float (v : pyval) : result Q :=
  match v with
  | PNum q => Ok q
  | PBool b => Ok (if b then 1%Q else 0%Q)
  | PStr s =>
      match float_of_str s with
      | Some q => Ok q
      | None => Raise ValueError
      end
  | _ => Raise TypeError
  end.

(** [int(v)]: a number is truncated towards zero. *)
Definition int (v : pyval) : result Z :=
  match v with
  | PNum q => Ok (trunc q)
  | PBool b => Ok (if b then 1 else 0)
  | PStr s =>
      match int_of_str s with
      | Some z => Ok z
      | None => Raise ValueError
      end
  | _ => Raise TypeError
  end.

(** [str(v)] *)
Definition str (v : pyval) : string :=
  match v with
  | PStr s => s
  | _ => repr v
  end.

(** [datetime.fromtimestamp(v)] *)
Definition fromtimestamp (v : pyval) : result datetime :=
  match v with
  | PNum q => localtime q
  | PBool b => localtime (if b then 1%Q else 0%Q)
  | _ => Raise TypeError
  end.

End Conversions.

(** [x is not None and isinstance(x, (int, float))]; [bool] is a subclass
    of [int]. *)
Definition is_number (v : pyval) : bool :=
  match v with
  | PNum _ | PBool _ => true
  | _ => false
  end.

(** ** Arithmetic *)

Definition Qltb (a b : Q) : bool :=
  match Qcompare a b with Lt => true | _ => false end.
Definition Qgtb (a b : Q) : bool := Qltb b a.

(** Nearest integer, ties to even. *)
Definition round_half_even (q : Q) : Z :=
  let f := Qfloor q in
  match Qcompare (q - inject_Z f) (1 # 2) with
  | Lt => f
  | Gt => f + 1
  | Eq => if Z.even f then f else f + 1
  end.

(** [round(q, 1)] *)
Definition round1 (q : Q) : Q :=
  Qred (inject_Z (round_half_even (q * 10)) / 10).

(** [sum(l)] *)
Definition sum (l : list Q) : Q := fold_left Qplus l 0%Q.

(** [len(l)] as a number. *)
Definition len {A} (l : list A) : Q := inject_Z (Z.of_nat (length l)).

(** [range(n)] *)
Definition range (n : nat) : list Q :=
  map (fun i => inject_Z (Z.of_nat i)) (seq 0 n).

End Py.

Import Py.

(** ** weather_service.py *)

Module WeatherService.

(** The dict [get_current_weather] returns. *)
Module Clima.
Record t : Type := {
  temperatura : Q;
  humedad : Z;
  viento : Q;
  lluvia : Q;
  condicion : string;
  condicion_id : Z;
  timestamp : string
}.
End Clima.

(** One element of the list [get_forecast] returns under ["pronostico"]. *)
Module Forecast.
Record t : Type := {
  fecha : string;
  dia : string;
  temperatura : Q;
  humedad : Z;
  viento : Q;
  lluvia : Q;
  condicion : string;
  condicion_id : Z
}.

(** The record as the dict the analyser reads. *)
Definition to_dict (f : t) : pyval :=
  PDict [("fecha", PStr (fecha f)); ("dia", PStr (dia f));
         ("temperatura", PNum (temperatura f));
         ("humedad", PNum (inject_Z (humedad f)));
         ("viento", PNum (viento f)); ("lluvia", PNum (lluvia f));
         ("condicion", PStr (condicion f));
         ("condicion_id", PNum (inject_Z (condicion_id f)))].
End Forecast.

Record params : Type := {
  lat : Q;
  lon : Q;
  appid : string;
  units : string;
  lang : string
}.

(** What [requests.get] hands back: the status line and the decoded body
    (a body that is not JSON is outside the model). *)
Record response : Type := {
  status_code : Z;
  json : pyval
}.

(** [response.raise_for_status()]: [HTTPError] on a 4xx or 5xx status. *)
Definition raise_for_status (r : response) : result unit :=
  if (400 <=? status_code r) && (status_code r <? 600) then Raise HTTPError
  else Ok tt.

(** What one call of [_make_request] does to the outside world. *)
Inductive event : Type :=
| Get      (* requests.get(url, params=params, timeout=10, verify=True) *)
| Sleep.   (* time.sleep(self.retry_delay) *)

Definition max_retries : nat := 3.
Definition retry_delay : Z := 1.

Definition base_url : string := "https://api.openweathermap.org/data/2.5".

Section Service.
Context `{Builtins}.

(** The provider: the outcome of the [n]-th call (from 0) of [requests.get]
    on a URL and parameters within one [_make_request]. *)
Variable requests_get : string -> params -> nat -> result response.

Variable api_key : string.

(** The body of the [try]: the [attempts]-th request, its status check and
    the decoded body. *)
Definition intento (url : string) (p : params) (attempts : nat)
    : result pyval :=
  do response <- requests_get url p attempts;
  do _ <- raise_for_status response;
  Ok (json response).

(** The [while attempts < self.max_retries] loop; [fuel] is
    [max_retries - attempts].  The trace lists the calls made so far.  Both
    [except] clauses fall through to [attempts += 1]. *)
Fixpoint retry_loop (url : string) (p : params) (fuel attempts : nat)
    (trace : list event) : list event * result pyval :=
  match fuel with
  | O => (trace, Raise RequestException)
  | S fuel' =>
      let trace := trace ++ [Get] in
      match intento url p attempts with
      | Ok body => (trace, Ok body)
      | Raise e =>
          if is_Timeout e || is_RequestException e then
            let attempts := S attempts in
            let trace :=
              if (attempts <? max_retries)%nat then trace ++ [Sleep]
              else trace in
            retry_loop url p fuel' attempts trace
          else (trace, Raise e)
      end
  end.

Definition _make_request_trace (endpoint : string) (p : params)
    : list event * result pyval :=
  retry_loop (base_url ++ "/" ++ endpoint)%string p max_retries 0 [].

Definition _make_request (endpoint : string) (p : params) : result pyval :=
  snd (_make_request_trace endpoint p).

Definition mk_params (lat lon : Q) : params :=
  {| lat := lat; lon := lon; appid := api_key;
     units := "metric"; lang := "es" |}.

(** [all(key in main for key in ["temp", "humidity"])] *)
Definition all_in (main : pyval) (keys : list string) : result bool :=
  fold_left
    (fun (acc : result bool) (key : string) =>
       do b <- acc;
       if b then contains main key else Ok false)
    keys (Ok true).

(** [round(float(x["wind"].get("speed", 0)) * 3.6, 1)] *)
Definition wind_kmh (x : pyval) : result Q :=
  do wind <- getitem x "wind";
  do speed <- get wind "speed" (PNum 0);
  do speed <- float speed;
  Ok (round1 (speed * 3.6)).

(** [str(x["weather"][0]["description"]) if x.get("weather") else
    "desconocido"] *)
Definition condicion_of (x : pyval) : result string :=
  do w <- get x "weather" PNone;
  if truthy w then
    do ws <- getitem x "weather";
    do w0 <- getitem0 ws;
    do d <- getitem w0 "description";
    Ok (str d)
  else Ok "desconocido".

(** [int(x["weather"][0]["id"]) if x.get("weather") else 800] *)
Definition condicion_id_of (x : pyval) : result Z :=
  do w <- get x "weather" PNone;
  if truthy w then
    do ws <- getitem x "weather";
    do w0 <- getitem0 ws;
    do i <- getitem w0 "id";
    int i
  else Ok 800.

(** [float(x.get("rain", {}).get(key, 0))] *)
Definition rain_of (x : pyval) (key : string) : result Q :=
  do rain <- get x "rain" (PDict []);
  do r <- get rain key (PNum 0);
  float r.

Definition get_current_weather (lat lon : Q) : result Clima.t :=
  try_except
    (try_except
       (do data <- _make_request "weather" (mk_params lat lon);
        do main <- get data "main" (PDict []);
        do complete <- all_in main ["temp"; "humidity"];
        if negb complete then Raise ValueError
        else
          do main <- getitem data "main";
          do temp <- getitem main "temp";
          do temp <- float temp;
          do main <- getitem data "main";
          do hum <- getitem main "humidity";
          do hum <- int hum;
          do viento <- wind_kmh data;
          do lluvia <- rain_of data "1h";
          do condicion <- condicion_of data;
          do condicion_id <- condicion_id_of data;
          Ok {| Clima.temperatura := round1 temp;
                Clima.humedad := hum;
                Clima.viento := viento;
                Clima.lluvia := lluvia;
                Clima.condicion := condicion;
                Clima.condicion_id := condicion_id;
                Clima.timestamp := now_isoformat |})
       key_value_type (fun _ => Raise ValueError))
    any_exception (fun e => Raise e).

(** [self._get_day_name(weekday)] *)
Definition _get_day_name (weekday : Z) : string :=
  match weekday with
  | 0 => "Lunes"
  | 1 => "Martes"
  | 2 => "Miércoles"
  | 3 => "Jueves"
  | 4 => "Viernes"
  | 5 => "Sábado"
  | 6 => "Domingo"
  | _ => "Desconocido"
  end.

(** The dict literal [forecast = {...}], its values evaluated in order. *)
Definition build_forecast (item : pyval) (dt : datetime)
    : result Forecast.t :=
  let fecha := date_str dt in
  let dia := _get_day_name (weekday dt) in
  do main <- getitem item "main";
  do temp <- getitem main "temp";
  do temp <- float temp;
  do main <- getitem item "main";
  do hum <- getitem main "humidity";
  do hum <- int hum;
  do viento <- wind_kmh item;
  do lluvia <- rain_of item "3h";
  do condicion <- condicion_of item;
  do condicion_id <- condicion_id_of item;
  Ok {| Forecast.fecha := fecha;
        Forecast.dia := dia;
        Forecast.temperatura := round1 temp;
        Forecast.humedad := hum;
        Forecast.viento := viento;
        Forecast.lluvia := (lluvia / 3)%Q;
        Forecast.condicion := condicion;
        Forecast.condicion_id := condicion_id |}.

(** [dt.hour in [11, 12, 13]] *)
Definition midday (dt : datetime) : bool :=
  existsb (Z.eqb (hour dt)) [11; 12; 13].

(** [dt = datetime.fromtimestamp(item["dt"])] *)
Definition item_datetime (item : pyval) : result datetime :=
  do ts <- getitem item "dt";
  fromtimestamp ts.

(** The [for item in data["list"]] loop with its [try], [continue] and
    [break], over the loop state [daily_forecasts], [seen_dates]. *)
Fixpoint forecast_loop (items : list pyval) (daily_forecasts : list Forecast.t)
    (seen_dates : gset string) : result (list Forecast.t) :=
  match items with
  | [] => Ok daily_forecasts
  | item :: rest =>
      match item_datetime item with
      | Raise e =>
          if key_value_type e then forecast_loop rest daily_forecasts seen_dates
          else Raise e
      | Ok dt =>
          if midday dt && negb (bool_decide (date_str dt ∈ seen_dates)) then
            let seen_dates := {[date_str dt]} ∪ seen_dates in
            match build_forecast item dt with
            | Raise e =>
                if key_value_type e
                then forecast_loop rest daily_forecasts seen_dates
                else Raise e
            | Ok forecast =>
                let daily_forecasts := daily_forecasts ++ [forecast] in
                if (5 <=? length daily_forecasts)%nat then Ok daily_forecasts
                else forecast_loop rest daily_forecasts seen_dates
            end
          else forecast_loop rest daily_forecasts seen_dates
      end
  end.

(** What [for item in v] iterates over. *)
Definition iterate (v : pyval) : result (list pyval) :=
  match v with
  | PList l => Ok l
  | PDict d => Ok (map (fun kv => PStr (fst kv)) d)
  | PStr s => Ok (map (fun c => PStr (String c EmptyString)) (list_ascii_of_string s))
  | _ => Raise TypeError
  end.

(** [get_forecast]; the value is the list returned under ["pronostico"]. *)
Definition get_forecast (lat lon : Q) : result (list Forecast.t) :=
  try_except
    (do data <- _make_request "forecast" (mk_params lat lon);
     do has_list <- contains data "list";
     do empty <- (if has_list then
                    do l <- getitem data "list"; Ok (negb (truthy l))
                  else Ok true);
     if empty then Raise ValueError
     else
       do l <- getitem data "list";
       do items <- iterate l;
       do daily_forecasts <- forecast_loop items [] ∅;
       if match daily_forecasts with [] => true | _ => false end
       then Raise ValueError
       else Ok daily_forecasts)
    any_exception (fun e => Raise e).

End Service.

End WeatherService.

(** ** weather_predictions.py *)

Module WeatherPredictions.

Record riesgo_cultivo : Type := {
  nivel : string;
  factores : list string;
  valor : Z
}.

(** [{"valor": ..., "categoria": ...}] *)
Record condicion : Type := {
  cond_valor : Q;
  categoria : string
}.

Record condiciones : Type := {
  temperatura : condicion;
  humedad : condicion;
  viento : condicion
}.

Record patron_diario : Type := {
  dia : string;
  fecha : string;
  condiciones_dia : condiciones;
  riesgo : riesgo_cultivo
}.

Record recomendacion : Type := {
  rec_tipo : string;
  rec_mensaje : string
}.

Record alerta : Type := {
  tipo : string;
  nivel_alerta : string;
  mensaje : string
}.

Record tendencias : Type := {
  tendencia_temperatura : string;
  tendencia_humedad : string
}.

Record resumen : Type := {
  temperatura_promedio : Q;
  humedad_promedio : Q;
  viento_promedio : Q;
  resumen_tendencias : tendencias
}.

(** The dict [analisis_semanal]; the key ["resumen"] is set last. *)
Record analisis : Type := {
  patrones_diarios : list patron_diario;
  recomendaciones : list recomendacion;
  alertas : list alerta;
  resumen_semanal : option resumen
}.

(** [sklearn.linear_model.LinearRegression().fit(X, y).coef_[0]] for one
    feature and an intercept: the ordinary least-squares slope, in exact
    arithmetic. *)
Definition LinearRegression_coef (X y : list Q) : Q :=
  let mx := (sum X / len X)%Q in
  let my := (sum y / len y)%Q in
  let sxy :=
    sum (map (fun xy => ((fst xy - mx) * (snd xy - my))%Q) (combine X y)) in
  let sxx := sum (map (fun x => ((x - mx) * (x - mx))%Q) X) in
  (sxy / sxx)%Q.

Section Predictions.
Context `{Builtins}.

(** One element of the comprehension
    [[float(x) for x in datos_historicos
      if x is not None and isinstance(x, (int, float))]]. *)
Definition limpiar (x : pyval) : option Q :=
  if is_number x
  then match float x with Ok q => Some q | Raise _ => None end
  else None.

Definition _calcular_tendencia (datos_historicos : list pyval) : result Q :=
  try_except
    (if (length datos_historicos <? 2)%nat then Ok 0%Q
     else
       let datos_limpios := omap limpiar datos_historicos in
       if (length datos_limpios <? 2)%nat then Ok 0%Q
       else
         let X := range (length datos_limpios) in
         Ok (Qred (LinearRegression_coef X datos_limpios)))
    any_exception (fun _ => Ok 0%Q).

Definition _categorizar_temperatura (temp : pyval) : result string :=
  try_except
    (do temp <- float temp;
     if Qltb temp 15 then Ok "fría"
     else if Qltb temp 25 then Ok "moderada"
     else Ok "caliente")
    value_type (fun _ => Ok "no disponible").

Definition _categorizar_humedad (hum : pyval) : result string :=
  try_except
    (do hum <- float hum;
     if Qltb hum 40 then Ok "baja"
     else if Qltb hum 70 then Ok "moderada"
     else Ok "alta")
    value_type (fun _ => Ok "no disponible").

Definition _categorizar_viento (viento : pyval) : result string :=
  try_except
    (do viento <- float viento;
     if Qltb viento 10 then Ok "suave"
     else if Qltb viento 20 then Ok "moderado"
     else Ok "fuerte")
    value_type (fun _ => Ok "no disponible").

(** The locals [riesgo] and [factores] are threaded through the three
    evaluations. *)
Definition _evaluar_riesgo_cultivo (temp hum viento : Q)
    : result riesgo_cultivo :=
  try_except
    (let '(riesgo, factores) := (0, @nil string) in
     let '(riesgo, factores) :=
       if Qgtb temp 30 then (riesgo + 2, factores ++ ["temperatura alta"])
       else if Qltb temp 10 then (riesgo + 2, factores ++ ["temperatura baja"])
       else (riesgo, factores) in
     let '(riesgo, factores) :=
       if Qgtb hum 80 then (riesgo + 2, factores ++ ["humedad alta"])
       else if Qltb hum 30 then (riesgo + 1, factores ++ ["humedad baja"])
       else (riesgo, factores) in
     let '(riesgo, factores) :=
       if Qgtb viento 25 then (riesgo + 2, factores ++ ["viento fuerte"])
       else (riesgo, factores) in
     let nivel_riesgo :=
       if riesgo <=? 1 then "bajo"
       else if riesgo <=? 3 then "medio"
       else "alto" in
     Ok {| nivel := nivel_riesgo; factores := factores; valor := riesgo |})
    any_exception
    (fun _ => Ok {| nivel := "no disponible"; factores := []; valor := 0 |}).

Definition _interpretar_tendencia (tendencia : pyval) : result string :=
  try_except
    (do tendencia <- float tendencia;
     if Qltb (Qabs tendencia) 0.1 then Ok "estable"
     else if Qgtb tendencia 0 then Ok "aumentando"
     else Ok "disminuyendo")
    value_type (fun _ => Ok "no disponible").

Definition recomendacion_riego : recomendacion :=
  {| rec_tipo := "riego";
     rec_mensaje :=
       "Aumentar frecuencia de riego por tendencia al alza en temperaturas" |}.

Definition alerta_hongos : alerta :=
  {| tipo := "hongos";
     nivel_alerta := "precaución";
     mensaje := "Riesgo de desarrollo de hongos por alta humedad" |}.

Definition alerta_viento : alerta :=
  {| tipo := "viento";
     nivel_alerta := "advertencia";
     mensaje := "Vientos fuertes pueden afectar los cultivos" |}.

Definition add_recomendacion (r : recomendacion) (a : analisis) : analisis :=
  {| patrones_diarios := patrones_diarios a;
     recomendaciones := recomendaciones a ++ [r];
     alertas := alertas a;
     resumen_semanal := resumen_semanal a |}.

Definition add_alerta (x : alerta) (a : analisis) : analisis :=
  {| patrones_diarios := patrones_diarios a;
     recomendaciones := recomendaciones a;
     alertas := alertas a ++ [x];
     resumen_semanal := resumen_semanal a |}.

(** [_generar_recomendaciones] mutates [analisis] and returns nothing; here
    it returns the dict as it leaves it.  The only call that is a [result]
    comes before the first mutation, so on an exception the dict is as it
    was. *)
Definition _generar_recomendaciones (a : analisis)
    (temperaturas humedades vientos : list Q) : analisis :=
  match
    (do tendencia_temp <- _calcular_tendencia (map PNum temperaturas);
     let a :=
       if Qgtb tendencia_temp 0.5 then add_recomendacion recomendacion_riego a
       else a in
     let a :=
       if existsb (fun h => Qgtb h 80) humedades then add_alerta alerta_hongos a
       else a in
     let a :=
       if existsb (fun v => Qgtb v 30) vientos then add_alerta alerta_viento a
       else a in
     Ok a)
  with
  | Ok a' => a'
  | Raise _ => a
  end.

(** [round(sum(l) / len(l), 1) if l else 0] *)
Definition promedio (l : list Q) : Q :=
  match l with
  | [] => 0%Q
  | _ => round1 (sum l / len l)
  end.

Definition _generar_resumen (temperaturas humedades vientos : list Q)
    (tendencia_temp tendencia_hum : Q) : result resumen :=
  try_except
    (do tt <- _interpretar_tendencia (PNum tendencia_temp);
     do th <- _interpretar_tendencia (PNum tendencia_hum);
     Ok {| temperatura_promedio := promedio temperaturas;
           humedad_promedio := promedio humedades;
           viento_promedio := promedio vientos;
           resumen_tendencias :=
             {| tendencia_temperatura := tt; tendencia_humedad := th |} |})
    any_exception
    (fun _ =>
       Ok {| temperatura_promedio := 0%Q;
             humedad_promedio := 0%Q;
             viento_promedio := 0%Q;
             resumen_tendencias :=
               {| tendencia_temperatura := "no disponible";
                  tendencia_humedad := "no disponible" |} |}).

(** The state of the [for dia in datos_diarios] loop. *)
Record estado : Type := {
  patrones : list patron_diario;
  temperaturas : list Q;
  humedades : list Q;
  vientos : list Q
}.

Definition estado_inicial : estado :=
  {| patrones := []; temperaturas := []; humedades := []; vientos := [] |}.

(** The three conversions at the head of the [try]. *)
Definition leer_dia (dia : pyval) : result (Q * Q * Q) :=
  do t <- get dia "temperatura" (PNum 0);
  do temp <- float t;
  do h <- get dia "humedad" (PNum 0);
  do hum <- float h;
  do v <- get dia "viento" (PNum 0);
  do viento <- float v;
  Ok (temp, hum, viento).

(** The dict literal [patron_diario = {...}]. *)
Definition construir_patron (dia : pyval) (temp hum viento : Q)
    : result patron_diario :=
  do d <- get dia "dia" (PStr "");
  do f <- get dia "fecha" (PStr "");
  do ct <- _categorizar_temperatura (PNum temp);
  do ch <- _categorizar_humedad (PNum hum);
  do cv <- _categorizar_viento (PNum viento);
  do r <- _evaluar_riesgo_cultivo temp hum viento;
  Ok {| dia := str d;
        fecha := str f;
        condiciones_dia :=
          {| temperatura := {| cond_valor := temp; categoria := ct |};
             humedad := {| cond_valor := hum; categoria := ch |};
             viento := {| cond_valor := viento; categoria := cv |} |};
        riesgo := r |}.

(** One turn of the loop.  The three [append]s to the series come before
    the pattern is built, so an exception from there on would leave them in
    place. *)
Definition procesar_dia (st : estado) (dia : pyval) : result estado :=
  match leer_dia dia with
  | Raise e => if value_type e then Ok st else Raise e
  | Ok (temp, hum, viento) =>
      let st :=
        {| patrones := patrones st;
           temperaturas := temperaturas st ++ [temp];
           humedades := humedades st ++ [hum];
           vientos := vientos st ++ [viento] |} in
      match construir_patron dia temp hum viento with
      | Raise e => if value_type e then Ok st else Raise e
      | Ok patron =>
          Ok {| patrones := patrones st ++ [patron];
                temperaturas := temperaturas st;
                humedades := humedades st;
                vientos := vientos st |}
      end
  end.

Fixpoint procesar_dias (datos_diarios : list pyval) (st : estado)
    : result estado :=
  match datos_diarios with
  | [] => Ok st
  | dia :: rest =>
      do st <- procesar_dia st dia;
      procesar_dias rest st
  end.

(** [analizar_patron_semanal] once the forecast is in hand: from
    [if not datos_diarios] to [return analisis_semanal]. *)
Definition analizar_datos (datos_diarios : list pyval) : result analisis :=
  match datos_diarios with
  | [] => Raise ValueError
  | _ =>
      do st <- procesar_dias datos_diarios estado_inicial;
      match patrones st with
      | [] => Raise ValueError
      | _ =>
          let analisis_semanal :=
            {| patrones_diarios := patrones st;
               recomendaciones := [];
               alertas := [];
               resumen_semanal := None |} in
          do tendencia_temp <- _calcular_tendencia (map PNum (temperaturas st));
          do tendencia_hum <- _calcular_tendencia (map PNum (humedades st));
          let analisis_semanal :=
            _generar_recomendaciones analisis_semanal
              (temperaturas st) (humedades st) (vientos st) in
          do r <- _generar_resumen (temperaturas st) (humedades st)
                    (vientos st) tendencia_temp tendencia_hum;
          Ok {| patrones_diarios := patrones_diarios analisis_semanal;
                recomendaciones := recomendaciones analisis_semanal;
                alertas := alertas analisis_semanal;
                resumen_semanal := Some r |}
      end
  end.

(** [self.weather_service.get_forecast], for any service the analyser is
    built with; its value is the list under ["pronostico"]. *)
Variable get_forecast : Q -> Q -> result (list pyval).

Definition analizar_patron_semanal (lat lon : Q) : result analisis :=
  try_except
    (if negb (Qle_bool (-90) lat && Qle_bool lat 90)
        || negb (Qle_bool (-180) lon && Qle_bool lon 180)
     then Raise ValueError
     else
       do datos_diarios <- get_forecast lat lon;
       analizar_datos datos_diarios)
    any_exception (fun e => Raise e).

End Predictions.

(** The analyser built with the service of [weather_service.py]. *)
Definition servicio `{Builtins}
    (requests_get :
       string -> WeatherService.params -> nat -> result WeatherService.response)
    (api_key : string) (lat lon : Q) : result (list pyval) :=
  do pronostico <- WeatherService.get_forecast requests_get api_key lat lon;
  Ok (map WeatherService.Forecast.to_dict pronostico).

End WeatherPredictions.

(** ** An environment for the worked examples

    A UTC clock, parsers for plain signed decimals, and a scripted
    provider.  The theorems below hold for every environment; this one
    lets them be run. *)

Module Sample.

Fixpoint zeros (n : nat) : string :=
  match n with
  | O => ""
  | S n' => String "0"%char (zeros n')
  end.

(** A natural number in decimal, left-padded with zeros to [width]. *)
Definition decimal (width : nat) (z : Z) : string :=
  let s := DecimalString.NilZero.string_of_uint (N.to_uint (Z.to_N z)) in
  (zeros (width - String.length s) ++ s)%string.

(** Year, month and day of the proleptic Gregorian calendar from the day
    count since 1970-01-01. *)
Definition civil (days : Z) : Z * Z * Z :=
  let z := days + 719468 in
  let era := z / 146097 in
  let doe := z - era * 146097 in
  let yoe := (doe - doe / 1460 + doe / 36524 - doe / 146096) / 365 in
  let doy := doe - (365 * yoe + yoe / 4 - yoe / 100) in
  let mp := (5 * doy + 2) / 153 in
  let d := doy - (153 * mp + 2) / 5 + 1 in
  let m := if mp <? 10 then mp + 3 else mp - 9 in
  let y := yoe + era * 400 + (if m <=? 2 then 1 else 0) in
  (y, m, d).

Definition utc (q : Q) : result datetime :=
  let ts := Qfloor q in
  let days := ts / 86400 in
  let '(y, m, d) := civil days in
  if (y <? 1) || (9999 <? y) then Raise ValueError
  else
    Ok {| date_str :=
            (decimal 4 y ++ "-" ++ decimal 2 m ++ "-" ++ decimal 2 d)%string;
          hour := (ts mod 86400) / 3600;
          weekday := (days + 3) mod 7 |}.

Definition digits (s : string) : option Z :=
  match s with
  | EmptyString => None
  | _ => option_map Z.of_uint (DecimalString.NilEmpty.uint_of_string s)
  end.

Definition signed {A} (neg : A -> A) (parse : string -> option A)
    (s : string) : option A :=
  match s with
  | String "-"%char r => option_map neg (parse r)
  | String "+"%char r => parse r
  | _ => parse s
  end.

Definition unsigned_decimal (s : string) : option Q :=
  match String.index 0 "." s with
  | None => option_map inject_Z (digits s)
  | Some i =>
      let fp := String.substring (S i) (String.length s - S i) s in
      match digits (String.substring 0 i s), digits fp with
      | Some a, Some b =>
          Some (Qred (inject_Z a
                      + inject_Z b / inject_Z (10 ^ Z.of_nat (String.length fp))))
      | _, _ => None
      end
  end.

Definition show (v : pyval) : string :=
  match v with
  | PNone => "None"
  | PBool true => "True"
  | PBool false => "False"
  | PStr s => s
  | PNum _ => "<number>"
  | PList _ => "<list>"
  | PDict _ => "<dict>"
  end.

#[export] Instance builtins : Builtins := {|
  float_of_str := signed Qopp unsigned_decimal;
  int_of_str := signed Z.opp digits;
  repr := show;
  localtime := utc;
  now_isoformat := "2024-06-03T12:00:00"
|}.

(** A provider that answers the successive calls from a script and drops
    the connection once the script is over. *)
Definition scripted (script : list (result WeatherService.response))
    : string -> WeatherService.params -> nat -> result WeatherService.response :=
  fun _ _ n => nth n script (Raise ConnectionError).

Definition ok_response (body : pyval) : result WeatherService.response :=
  Ok {| WeatherService.status_code := 200; WeatherService.json := body |}.

Definition status_response (code : Z) : result WeatherService.response :=
  Ok {| WeatherService.status_code := code; WeatherService.json := PDict [] |}.

(** A provider sample as the forecast feed has it. *)
Definition sample (dt : Z) (temp hum speed : Q) : pyval :=
  PDict [("dt", PNum (inject_Z dt));
         ("main", PDict [("temp", PNum temp); ("humidity", PNum hum)]);
         ("wind", PDict [("speed", PNum speed)]);
         ("weather", PList [PDict [("description", PStr "cielo claro");
                                   ("id", PNum 800)]])].

(** Five days of midday samples: rising temperatures, one humid day, one
    windy day (9 m/s is 32.4 km/h). *)
Definition semana : pyval :=
  PList [sample 1717416000 18 60 2;
         sample 1717502400 20.5 85 3;
         sample 1717588800 22 70 9;
         sample 1717675200 23.5 64 4;
         sample 1717761600 26 58 5].

Definition proveedor
    : string -> WeatherService.params -> nat -> result WeatherService.response :=
  scripted [ok_response (PDict [("list", semana)])].

(** A feed whose first midday sample of 2024-06-04 has no measurements. *)
Definition muestras_con_hueco : list pyval :=
  [sample 1717405200 18.2 70 2;        (* 2024-06-03 09:00 *)
   sample 1717416000 24.96 55 3;       (* 2024-06-03 12:00 *)
   PDict [("dt", PNum 1717502400)];    (* 2024-06-04 12:00 *)
   sample 1717506000 21 88 9;          (* 2024-06-04 13:00 *)
   sample 1717588800 19.5 91 10].      (* 2024-06-05 12:00 *)

Definition proveedor_con_hueco
    : string -> WeatherService.params -> nat -> result WeatherService.response :=
  scripted [ok_response (PDict [("list", PList muestras_con_hueco)])].

(** A provider that is down. *)
Definition proveedor_caido
    : string -> WeatherService.params -> nat -> result WeatherService.response :=
  scripted [Raise Timeout; status_response 503; Raise ConnectionError].

End Sample.

(** ** What an endpoint answers *)

Module Http.

(** What leaves an endpoint in place of a value: a
    [fastapi.HTTPException] with its status code, or another exception. *)
Inductive raised : Type :=
| HTTPException (status_code : Z)
| FileNotFoundError
| Python (e : exn).

Inductive outcome (A : Type) : Type :=
| Return (a : A)
| Raised (r : raised).
Arguments Return {A} a.
Arguments Raised {A} r.

Definition obind {A B} (r : outcome A) (k : A -> outcome B) : outcome B :=
  match r with
  | Return a => k a
  | Raised x => Raised x
  end.

Notation "'run' x <- r ; k" := (obind r (fun x => k))
  (at level 10, x name, r at level 100, k at level 200).

(** A call that can raise a Python exception, inside an endpoint. *)
Definition lift {A} (r : result A) : outcome A :=
  match r with
  | Ok a => Return a
  | Raise e => Raised (Python e)
  end.

(** [except Exception as e: raise HTTPException(status_code=500, ...)];
    [HTTPException] is itself an [Exception]. *)
Definition except_Exception_500 {A} (body : outcome A) : outcome A :=
  match body with
  | Return a => Return a
  | Raised _ => Raised (HTTPException 500)
  end.

End Http.

(** ** main.py *)

Module Main.
Import Http.

Record LocationRequest : Type := {
  lat : Q;
  lon : Q
}.

(** The bounds of the two [Field]s: a body that breaks them never reaches
    an endpoint. *)
Definition validate (lat lon : Q) : option LocationRequest :=
  if Qle_bool (-90) lat && Qle_bool lat 90
     && Qle_bool (-180) lon && Qle_bool lon 180
  then Some {| lat := lat; lon := lon |}
  else None.

Definition is_ValueError (e : exn) : bool :=
  match e with
  | ValueError => true
  | _ => false
  end.

(** The three [except] clauses the weather endpoints share. *)
Definition weather_errors {A} (r : result A) : outcome A :=
  match r with
  | Ok a => Return a
  | Raise e =>
      if is_RequestException e then Raised (HTTPException 503)
      else if is_ValueError e then Raised (HTTPException 422)
      else Raised (HTTPException 500)
  end.

(** A row of [cultivos_condiciones.csv]. *)
Record fila : Type := {
  Nombre : string;
  Dia : pyval;
  Necesidad_Riego : Q;
  Estado_Cultivo : string;
  Riesgo_Insectos : Q;
  Riesgo_Hongos : Q;
  Riesgo_Bacterias : Q;
  Riesgo_Virus : Q;
  Riesgo_Malezas : Q
}.

Record riego : Type := {
  dia : pyval;
  necesidad_riego : Q
}.

Record dato_semanal : Type := {
  ds_Dia : pyval;
  ds_Estado_Cultivo : string;
  ds_Riesgo_Insectos : Q;
  ds_Riesgo_Hongos : Q;
  ds_Riesgo_Bacterias : Q;
  ds_Riesgo_Virus : Q;
  ds_Riesgo_Malezas : Q
}.

Record estado_cultivo : Type := {
  estados : gmap string nat;
  total_registros : nat;
  datos_semanales : list dato_semanal
}.

Record riesgos_t : Type := {
  r_Insectos : Z;
  r_Hongos : Z;
  r_Bacterias : Z;
  r_Virus : Z;
  r_Malezas : Z
}.

Record riesgo_plagas : Type := {
  riesgos : riesgos_t;
  nivel_riesgo : string
}.

(** [df[df['Nombre'] == cultivo]] *)
Definition del_cultivo (df : list fila) (cultivo : string) : list fila :=
  List.filter (fun row => String.eqb (Nombre row) cultivo) df.

(** [Series.value_counts().to_dict()] *)
Definition value_counts (l : list string) : gmap string nat :=
  fold_right (fun s m => <[s := S (default 0%nat (m !! s))]> m) ∅ l.

(** [round(Series.mean())] *)
Definition round_mean (l : list Q) : Z := round_half_even (sum l / len l).

Section Endpoints.
Context `{Builtins}.

Variable requests_get :
  string -> WeatherService.params -> nat -> result WeatherService.response.
Variable api_key : string.

(** The table of the CSV file, when the file is there. *)
Variable csv : option (list fila).

(** [pd.read_csv('cultivos_condiciones.csv')] *)
Definition read_csv : outcome (list fila) :=
  match csv with
  | Some df => Return df
  | None => Raised FileNotFoundError
  end.

Definition get_current_weather (location : LocationRequest)
    : outcome WeatherService.Clima.t :=
  weather_errors
    (WeatherService.get_current_weather requests_get api_key
       (lat location) (lon location)).

Definition get_weather_forecast (location : LocationRequest)
    : outcome (list WeatherService.Forecast.t) :=
  weather_errors
    (WeatherService.get_forecast requests_get api_key
       (lat location) (lon location)).

Definition get_weekly_analysis (location : LocationRequest)
    : outcome WeatherPredictions.analisis :=
  weather_errors
    (WeatherPredictions.analizar_patron_semanal
       (WeatherPredictions.servicio requests_get api_key)
       (lat location) (lon location)).

Definition get_irrigation_needs (cultivo : string) : outcome (list riego) :=
  match
    (run _ <- (match csv with
               | Some _ => Return tt
               | None => Raised FileNotFoundError
               end);
     run df <- read_csv;
     let cultivo_data := del_cultivo df cultivo in
     match cultivo_data with
     | [] => Raised (Python ValueError)
     | _ =>
         Return (map (fun row => {| dia := Dia row;
                                    necesidad_riego := Necesidad_Riego row |})
                   cultivo_data)
     end)
  with
  | Return a => Return a
  | Raised FileNotFoundError => Raised (HTTPException 404)
  | Raised (Python ValueError) => Raised (HTTPException 404)
  | Raised _ => Raised (HTTPException 500)
  end.

Definition get_crop_status (cultivo : string) : outcome estado_cultivo :=
  except_Exception_500
    (run df <- read_csv;
     let cultivo_df := del_cultivo df cultivo in
     match cultivo_df with
     | [] => Raised (HTTPException 404)
     | _ =>
         Return
           {| estados := value_counts (map Estado_Cultivo cultivo_df);
              total_registros := length cultivo_df;
              datos_semanales :=
                map (fun row =>
                       {| ds_Dia := Dia row;
                          ds_Estado_Cultivo := Estado_Cultivo row;
                          ds_Riesgo_Insectos := Riesgo_Insectos row;
                          ds_Riesgo_Hongos := Riesgo_Hongos row;
                          ds_Riesgo_Bacterias := Riesgo_Bacterias row;
                          ds_Riesgo_Virus := Riesgo_Virus row;
                          ds_Riesgo_Malezas := Riesgo_Malezas row |})
                  cultivo_df |}
     end).

Definition get_pest_risk (cultivo : string) : outcome riesgo_plagas :=
  except_Exception_500
    (run df <- read_csv;
     let cultivo_df := del_cultivo df cultivo in
     match cultivo_df with
     | [] => Raised (HTTPException 404)
     | _ =>
         let riesgos :=
           {| r_Insectos := round_mean (map Riesgo_Insectos cultivo_df);
              r_Hongos := round_mean (map Riesgo_Hongos cultivo_df);
              r_Bacterias := round_mean (map Riesgo_Bacterias cultivo_df);
              r_Virus := round_mean (map Riesgo_Virus cultivo_df);
              r_Malezas := round_mean (map Riesgo_Malezas cultivo_df) |} in
         let promedio_general :=
           (inject_Z (r_Insectos riesgos + r_Hongos riesgos
                      + r_Bacterias riesgos + r_Virus riesgos
                      + r_Malezas riesgos) / 5)%Q in
         let nivel_riesgo :=
           if Qltb promedio_general 2.5 then "Bajo"
           else if Qltb promedio_general 3.5 then "Medio"
           else "Alto" in
         Return {| riesgos := riesgos; nivel_riesgo := nivel_riesgo |}
     end).

End Endpoints.

End Main.

(** ** routes/clima.py *)

Module RutasClima.
Import Http.

Record Coordenadas : Type := {
  lat : Q;
  lon : Q
}.

(** The dict [obtener_clima_actual] returns: the provider's values as they
    came. *)
Record actual : Type := {
  temperatura : pyval;
  humedad : pyval;
  condicion : pyval;
  condicion_id : pyval;
  viento : pyval
}.

Record PronosticoHora : Type := {
  hora : string;
  ph_temperatura : pyval;
  ph_condicion : pyval;
  ph_condicion_id : pyval;
  ph_humedad : pyval;
  ph_viento : pyval
}.

Definition BASE_URL : string := "https://api.openweathermap.org/data/2.5".

(** [strftime("%H:00")] *)
Definition hora_en_punto (dt : datetime) : string :=
  let s := NilZero.string_of_uint (N.to_uint (Z.to_N (hour dt))) in
  ((if (String.length s <? 2)%nat then "0" ++ s else s) ++ ":00")%string.

(** [v[:8]] *)
Definition primeros_8 (v : pyval) : result (list pyval) :=
  match v with
  | PList l => Ok (firstn 8 l)
  | PStr s =>
      Ok (map (fun c => PStr (String c EmptyString))
            (firstn 8 (list_ascii_of_string s)))
  | _ => Raise TypeError
  end.

Section Routes.
Context `{Builtins}.

Variable requests_get :
  string -> WeatherService.params -> nat -> result WeatherService.response.
Variable OPENWEATHER_API_KEY : string.

Definition mk_params (coords : Coordenadas) : WeatherService.params :=
  {| WeatherService.lat := lat coords;
     WeatherService.lon := lon coords;
     WeatherService.appid := OPENWEATHER_API_KEY;
     WeatherService.units := "metric";
     WeatherService.lang := "es" |}.

Definition obtener_clima_actual (coords : Coordenadas) : outcome actual :=
  except_Exception_500
    (run response <-
       lift (requests_get (BASE_URL ++ "/weather")%string (mk_params coords) 0);
     if negb (WeatherService.status_code response =? 200)
     then Raised (HTTPException (WeatherService.status_code response))
     else
       let data := WeatherService.json response in
       lift
         (do main <- getitem data "main";
          do temp <- getitem main "temp";
          do main <- getitem data "main";
          do hum <- getitem main "humidity";
          do ws <- getitem data "weather";
          do w0 <- getitem0 ws;
          do descr <- getitem w0 "description";
          do ws <- getitem data "weather";
          do w0 <- getitem0 ws;
          do id <- getitem w0 "id";
          do wind <- getitem data "wind";
          do speed <- getitem wind "speed";
          Ok {| temperatura := temp;
                humedad := hum;
                condicion := descr;
                condicion_id := id;
                viento := speed |})).

(** The dict appended for one sample. *)
Definition pronostico_hora (item : pyval) : result PronosticoHora :=
  do ts <- getitem item "dt";
  do dt <- fromtimestamp ts;
  do main <- getitem item "main";
  do temp <- getitem main "temp";
  do ws <- getitem item "weather";
  do w0 <- getitem0 ws;
  do descr <- getitem w0 "description";
  do ws <- getitem item "weather";
  do w0 <- getitem0 ws;
  do id <- getitem w0 "id";
  do main <- getitem item "main";
  do hum <- getitem main "humidity";
  do wind <- getitem item "wind";
  do speed <- getitem wind "speed";
  Ok {| hora := hora_en_punto dt;
        ph_temperatura := temp;
        ph_condicion := descr;
        ph_condicion_id := id;
        ph_humedad := hum;
        ph_viento := speed |}.

(** The [for item in data["list"][:8]] loop: the first exception ends
    it. *)
Fixpoint pronostico_horas (items : list pyval) (pronostico : list PronosticoHora)
    : result (list PronosticoHora) :=
  match items with
  | [] => Ok pronostico
  | item :: rest =>
      do h <- pronostico_hora item;
      pronostico_horas rest (pronostico ++ [h])
  end.

Definition obtener_pronostico_horas (coords : Coordenadas)
    : outcome (list PronosticoHora) :=
  except_Exception_500
    (run response <-
       lift (requests_get (BASE_URL ++ "/forecast")%string (mk_params coords) 0);
     if negb (WeatherService.status_code response =? 200)
     then Raised (HTTPException (WeatherService.status_code response))
     else
       let data := WeatherService.json response in
       lift
         (do l <- getitem data "list";
          do items <- primeros_8 l;
          pronostico_horas items [])).

End Routes.

End RutasClima.

(** ** A crop table and provider answers for the worked examples *)

Module Muestra.

Definition fila_de (nombre : string) (dia : Z) (riego : Q) (estado : string)
    (ri rh rb rv rm : Q) : Main.fila :=
  {| Main.Nombre := nombre;
     Main.Dia := PNum (inject_Z dia);
     Main.Necesidad_Riego := riego;
     Main.Estado_Cultivo := estado;
     Main.Riesgo_Insectos := ri;
     Main.Riesgo_Hongos := rh;
     Main.Riesgo_Bacterias := rb;
     Main.Riesgo_Virus := rv;
     Main.Riesgo_Malezas := rm |}.

Definition tabla : list Main.fila :=
  [fila_de "Papa" 1 30 "Bueno" 2 3 1 1 2;
   fila_de "Trigo" 1 12 "Regular" 4 4 3 2 5;
   fila_de "Papa" 2 25 "Regular" 3 4 2 1 2;
   fila_de "Papa" 3 40 "Bueno" 2 5 2 2 3;
   fila_de "Trigo" 2 15 "Malo" 5 4 4 3 5].


(** Nine samples three hours apart, the last one without measurements. *)
Definition nueve_muestras : list pyval :=
  [Sample.sample 1717405200 18 70 2; Sample.sample 1717416000 24 55 3;
   Sample.sample 1717426800 25 50 3; Sample.sample 1717437600 22 58 2;
   Sample.sample 1717448400 19 66 1; Sample.sample 1717459200 17 72 1;
   Sample.sample 1717470000 16 75 2; Sample.sample 1717480800 16 78 2;
   PDict [("dt", PNum 1717491600)]].

End Muestra.

(** ** Vocabulary of the forecast properties *)

Section ForecastSpec.
Import WeatherService.
Context `{Builtins}.

(** [item] is a sample of the local date [d] taken at 11, 12 or 13 h. *)
Definition midday_sample (item : pyval) (d : string) : Prop :=
  exists dt, item_datetime item = Ok dt /\ midday dt = true /\ date_str dt = d.

(** Entry [f] is built from the [i]-th sample of the feed, and no earlier
    sample is a midday sample of the same date. *)
Definition sourced (items : list pyval) (f : Forecast.t) (i : nat) : Prop :=
  exists item dt,
    items !! i = Some item /\
    item_datetime item = Ok dt /\
    midday dt = true /\
    build_forecast item dt = Ok f /\
    Forecast.fecha f = date_str dt /\
    forall j item', (j < i)%nat -> items !! j = Some item' ->
                    ~ midday_sample item' (date_str dt).

(** What holds of the loop state once the samples [pre] are consumed;
    [idxs] are the positions the entries were taken from. *)
Record loop_inv (items pre : list pyval) (daily : list Forecast.t)
    (seen : gset string) (idxs : list nat) : Prop := {
  inv_sourced : Forall2 (sourced items) daily idxs;
  inv_sorted : StronglySorted lt idxs;
  inv_bound : Forall (fun i => (i < length pre)%nat) idxs;
  inv_seen : forall d,
    d ∈ seen <->
    exists j item, (j < length pre)%nat /\ items !! j = Some item /\
                   midday_sample item d;
  inv_dates : Forall (fun f => Forecast.fecha f ∈ seen) daily;
  inv_nodup : NoDup (Forecast.fecha <$> daily)
}.

(** The [i]-th sample of the feed is [item], read at local time [dt], and
    it is the first midday sample of its date. *)
Definition primera_de_mediodia (items : list pyval) (i : nat) (item : pyval)
    (dt : datetime) : Prop :=
  items !! i = Some item /\
  item_datetime item = Ok dt /\
  midday dt = true /\
  forall j item', (j < i)%nat -> items !! j = Some item' ->
                  ~ midday_sample item' (date_str dt).

(** Every first midday sample among the first [n] that could be built is
    in [daily]. *)
Definition completo (items : list pyval) (n : nat)
    (daily : list Forecast.t) : Prop :=
  forall i item dt f,
    (i < n)%nat -> primera_de_mediodia items i item dt ->
    build_forecast item dt = Ok f -> In f daily.

(** A sample the forecast loop passes over: it is not a midday sample, or
    reading its time raises an exception the loop catches. *)
Definition pasa_de_largo (item : pyval) : Prop :=
  match item_datetime item with
  | Ok dt => midday dt = false
  | Raise e => key_value_type e = true
  end.

End ForecastSpec.

(** ** Vocabulary of the analysis properties *)

Section AnalysisSpec.
Import WeatherPredictions.

(** The values a daily pattern records. *)
Definition temp_de (p : patron_diario) : Q :=
  cond_valor (temperatura (condiciones_dia p)).
Definition hum_de (p : patron_diario) : Q :=
  cond_valor (humedad (condiciones_dia p)).
Definition viento_de (p : patron_diario) : Q :=
  cond_valor (viento (condiciones_dia p)).

(** The three series are the values of the patterns, in order. *)
Definition series_ok (st : estado) : Prop :=
  temperaturas st = map temp_de (patrones st) /\
  humedades st = map hum_de (patrones st) /\
  vientos st = map viento_de (patrones st).

(** The risk a pattern records is the evaluation of its three values. *)
Definition riesgo_ok (p : patron_diario) : Prop :=
  _evaluar_riesgo_cultivo (temp_de p) (hum_de p) (viento_de p)
  = Ok (riesgo p).


(** The points a risk factor adds to the score. *)
Definition peso (factor : string) : Z :=
  if String.eqb factor "humedad baja" then 1 else 2.

End AnalysisSpec.

(** * Properties *)

Import WeatherPredictions.

(** ** Comparisons *)

Lemma Qltb_lt (a b : Q) : Qltb a b = true <-> (a < b)%Q.
Proof.
  unfold Qltb. rewrite Qlt_alt. destruct (a ?= b)%Q; split; congruence.
Qed.

Lemma Qltb_ge (a b : Q) : Qltb a b = false <-> (b <= a)%Q.
Proof.
  rewrite <- not_true_iff_false, Qltb_lt. split.
  - apply Qnot_lt_le.
  - apply Qle_not_lt.
Qed.

Lemma Qgtb_gt (a b : Q) : Qgtb a b = true <-> (b < a)%Q.
Proof. apply Qltb_lt. Qed.

Lemma Qgtb_le (a b : Q) : Qgtb a b = false <-> (a <= b)%Q.
Proof. apply Qltb_ge. Qed.

(** ** Crop risk *)

(** The level is read off the score, and the score is at most 6. *)
Lemma evaluar_riesgo_nivel (temp hum viento : Q) :
  exists r, _evaluar_riesgo_cultivo temp hum viento = Ok r /\
    0 <= valor r <= 6 /\
    nivel r = (if valor r <=? 1 then "bajo"
               else if valor r <=? 3 then "medio" else "alto").
Proof.
  unfold _evaluar_riesgo_cultivo, try_except.
  destruct (Qgtb temp 30), (Qltb temp 10), (Qgtb hum 80), (Qltb hum 30),
    (Qgtb viento 25); cbn; eexists; (split; [reflexivity|]); cbn;
    (split; [lia | reflexivity]).
Qed.

(** C1, as stated: the evaluation of temperature 32, humidity 85, wind 10
    is not score 4 at level "medio" (medium). *)
Lemma evaluar_riesgo_32_85_10_not_medio :
  _evaluar_riesgo_cultivo 32 85 10
  <> Ok {| nivel := "medio";
           factores := ["temperatura alta"; "humedad alta"];
           valor := 4 |}.
Proof. vm_compute. discriminate. Qed.

(** C1, amended: for temperature 32, humidity 85, wind 10 the evaluation
    returns score 4 with the factors high temperature and high humidity, and
    the level "alto" (high), which is what the rule score <= 1 low,
    score <= 3 medium, else high gives at 4; the rule holds of every
    evaluation. *)
Theorem evaluar_riesgo_32_85_10 :
  _evaluar_riesgo_cultivo 32 85 10
  = Ok {| nivel := "alto";
          factores := ["temperatura alta"; "humedad alta"];
          valor := 4 |}
  /\ forall temp hum viento : Q,
       exists r, _evaluar_riesgo_cultivo temp hum viento = Ok r /\
         nivel r = (if valor r <=? 1 then "bajo"
                    else if valor r <=? 3 then "medio" else "alto").
Proof.
  split; [reflexivity|].
  intros temp hum viento.
  destruct (evaluar_riesgo_nivel temp hum viento) as (r & Hr & _ & Hn).
  exists r. split; assumption.
Qed.

(** ** Categories *)

Section Categories.
Context `{Builtins}.

Lemma categorizar_temperatura_num (t : Q) :
  _categorizar_temperatura (PNum t)
  = Ok (if Qltb t 15 then "fría"
        else if Qltb t 25 then "moderada" else "caliente").
Proof.
  unfold _categorizar_temperatura. cbn.
  destruct (Qltb t 15); [reflexivity|]. destruct (Qltb t 25); reflexivity.
Qed.

Lemma categorizar_humedad_num (h : Q) :
  _categorizar_humedad (PNum h)
  = Ok (if Qltb h 40 then "baja"
        else if Qltb h 70 then "moderada" else "alta").
Proof.
  unfold _categorizar_humedad. cbn.
  destruct (Qltb h 40); [reflexivity|]. destruct (Qltb h 70); reflexivity.
Qed.

Lemma categorizar_viento_num (v : Q) :
  _categorizar_viento (PNum v)
  = Ok (if Qltb v 10 then "suave"
        else if Qltb v 20 then "moderado" else "fuerte").
Proof.
  unfold _categorizar_viento. cbn.
  destruct (Qltb v 10); [reflexivity|]. destruct (Qltb v 20); reflexivity.
Qed.

(** C5: a temperature is "fría" (cold) iff it is below 15, "moderada"
    (moderate) iff it is in [15, 25), and "caliente" (hot) iff it is at
    least 25; so 25.0 is hot, 15.0 moderate and 14.9 cold. *)
Theorem categorizar_temperatura_buckets :
  (forall t : Q,
     (_categorizar_temperatura (PNum t) = Ok "fría" <-> (t < 15)%Q) /\
     (_categorizar_temperatura (PNum t) = Ok "moderada"
        <-> (15 <= t)%Q /\ (t < 25)%Q) /\
     (_categorizar_temperatura (PNum t) = Ok "caliente" <-> (25 <= t)%Q)) /\
  _categorizar_temperatura (PNum 25.0) = Ok "caliente" /\
  _categorizar_temperatura (PNum 15.0) = Ok "moderada" /\
  _categorizar_temperatura (PNum 14.9) = Ok "fría".
Proof.
  split; [|repeat split; reflexivity].
  intros t. rewrite categorizar_temperatura_num.
  assert (H15_25 : (t < 15)%Q -> (t < 25)%Q).
  { intros Ht. eapply Qlt_trans; [exact Ht|reflexivity]. }
  destruct (Qltb t 15) eqn:E15; [|destruct (Qltb t 25) eqn:E25].
  - apply Qltb_lt in E15.
    split; [|split]; split; intros Hx; try discriminate Hx; try tauto.
    + destruct Hx as [Hge _]. exfalso. exact (Qle_not_lt _ _ Hge E15).
    + exfalso. exact (Qle_not_lt _ _ Hx (H15_25 E15)).
  - apply Qltb_ge in E15. apply Qltb_lt in E25.
    split; [|split]; split; intros Hx; try discriminate Hx; try tauto.
    + exfalso. exact (Qle_not_lt _ _ E15 Hx).
    + exfalso. exact (Qle_not_lt _ _ Hx E25).
  - apply Qltb_ge in E15. apply Qltb_ge in E25.
    split; [|split]; split; intros Hx; try discriminate Hx; try tauto.
    + exfalso. exact (Qle_not_lt _ _ E15 Hx).
    + destruct Hx as [_ Hlt]. exfalso. exact (Qle_not_lt _ _ E25 Hlt).
Qed.

End Categories.

(** ** Trend *)

Section Trend.
Context `{Builtins}.

(** The cleaned series keeps one number per valid point. *)
Lemma limpiar_length (datos : list pyval) :
  length (omap limpiar datos) = length (List.filter is_number datos).
Proof.
  induction datos as [|x datos IH]; [reflexivity|].
  destruct x; cbn; try exact IH; f_equal; exact IH.
Qed.

(** The trend never raises. *)
Lemma calcular_tendencia_total (datos : list pyval) :
  exists q, _calcular_tendencia datos = Ok q.
Proof.
  unfold _calcular_tendencia, try_except.
  destruct (length datos <? 2)%nat; [eexists; reflexivity|].
  match goal with |- context [(length ?l <? 2)%nat] =>
    destruct (length l <? 2)%nat end; eexists; reflexivity.
Qed.

(** C6: a series with fewer than two valid numeric points (a point is valid
    when it is an int or a float) has trend 0, returned and not raised; so
    have the empty series and every series of length 1. *)
Theorem calcular_tendencia_insuficiente (datos : list pyval) :
  (length (List.filter is_number datos) < 2)%nat ->
  _calcular_tendencia datos = Ok 0%Q.
Proof.
  intros Hlt. unfold _calcular_tendencia, try_except.
  destruct (length datos <? 2)%nat; [reflexivity|].
  rewrite limpiar_length.
  apply Nat.ltb_lt in Hlt. rewrite Hlt. reflexivity.
Qed.

Lemma interpretar_tendencia_num (t : Q) :
  _interpretar_tendencia (PNum t)
  = Ok (if Qltb (Qabs t) 0.1 then "estable"
        else if Qgtb t 0 then "aumentando" else "disminuyendo").
Proof.
  unfold _interpretar_tendencia. cbn.
  destruct (Qltb (Qabs t) 0.1); [reflexivity|].
  destruct (Qgtb t 0); reflexivity.
Qed.

(** C7: the least-squares slope of [10,10,10,10,10] over the day index is 0
    and reads "estable" (stable), that of [10,12,14,16,18] is 2 and reads
    "aumentando" (increasing); a slope reads stable iff its magnitude is
    below 0.1, and otherwise increasing when positive and "disminuyendo"
    (decreasing) when negative. *)
Theorem tendencia_series :
  _calcular_tendencia (map PNum [10; 10; 10; 10; 10]%Q) = Ok 0%Q /\
  _interpretar_tendencia (PNum 0) = Ok "estable" /\
  _calcular_tendencia (map PNum [10; 12; 14; 16; 18]%Q) = Ok 2%Q /\
  _interpretar_tendencia (PNum 2) = Ok "aumentando" /\
  forall t : Q,
    (_interpretar_tendencia (PNum t) = Ok "estable" <-> (Qabs t < 0.1)%Q) /\
    (_interpretar_tendencia (PNum t) = Ok "aumentando"
       <-> ~ (Qabs t < 0.1)%Q /\ (0 < t)%Q) /\
    (_interpretar_tendencia (PNum t) = Ok "disminuyendo"
       <-> ~ (Qabs t < 0.1)%Q /\ (t < 0)%Q).
Proof.
  split; [reflexivity|]. split; [reflexivity|].
  split; [reflexivity|]. split; [reflexivity|].
  intros t. rewrite interpretar_tendencia_num.
  destruct (Qltb (Qabs t) 0.1) eqn:Eabs; [|destruct (Qgtb t 0) eqn:Epos].
  - apply Qltb_lt in Eabs.
    split; [|split]; split; intros Hx; try discriminate Hx; tauto.
  - apply Qltb_ge in Eabs. apply Qgtb_gt in Epos.
    assert (Hn : ~ (Qabs t < 0.1)%Q) by (apply Qle_not_lt; exact Eabs).
    split; [|split]; split; intros Hx; try discriminate Hx; try tauto.
    destruct Hx as [_ Hneg]. exfalso.
    exact (Qlt_irrefl _ (Qlt_trans _ _ _ Epos Hneg)).
  - apply Qltb_ge in Eabs. apply Qgtb_le in Epos.
    assert (Hn : ~ (Qabs t < 0.1)%Q) by (apply Qle_not_lt; exact Eabs).
    assert (Hneg : (t < 0)%Q).
    { apply Qnot_le_lt. intros Hge. apply Hn.
      assert (Ht0 : (t == 0)%Q) by (apply Qle_antisym; assumption).
      rewrite Ht0. reflexivity. }
    split; [|split]; split; intros Hx; try discriminate Hx; try tauto.
    destruct Hx as [_ Hpos]. exfalso. exact (Qle_not_lt _ _ Epos Hpos).
Qed.

End Trend.

Lemma calcular_tendencia_insuficiente_witness :
  (length (List.filter is_number [PNone; PNum 21.5; PStr "n/d"]) < 2)%nat /\
  @_calcular_tendencia Sample.builtins [PNone; PNum 21.5; PStr "n/d"]
  = Ok 0%Q.
Proof.
  split; [cbn; lia|].
  apply (@calcular_tendencia_insuficiente Sample.builtins
           [PNone; PNum 21.5; PStr "n/d"]).
  cbn. lia.
Defined.

(** ** Retries *)

Section Retries.
Import WeatherService.

Variable requests_get : string -> params -> nat -> result response.

Lemma timeout_is_request_exception (e : exn) :
  is_Timeout e || is_RequestException e = is_RequestException e.
Proof. destruct e; reflexivity. Qed.

Lemma raise_for_status_error (r : response) :
  400 <= status_code r < 600 -> raise_for_status r = Raise HTTPError.
Proof.
  intros [Hlo Hhi]. unfold raise_for_status.
  apply Z.leb_le in Hlo. apply Z.ltb_lt in Hhi. rewrite Hlo, Hhi. reflexivity.
Qed.

Lemma intento_http_error (url : string) (p : params) (n : nat) (r : response) :
  requests_get url p n = Ok r -> 400 <= status_code r < 600 ->
  intento requests_get url p n = Raise HTTPError.
Proof.
  intros Hr Hs. unfold intento. rewrite Hr. cbn.
  rewrite (raise_for_status_error r Hs). reflexivity.
Qed.

Lemma intento_raise (url : string) (p : params) (n : nat) (e : exn) :
  requests_get url p n = Raise e -> intento requests_get url p n = Raise e.
Proof. intros Hr. unfold intento. rewrite Hr. reflexivity. Qed.

(** One turn of the [while] loop. *)
Lemma retry_loop_step (url : string) (p : params) (fuel n : nat)
    (trace : list event) :
  retry_loop requests_get url p (S fuel) n trace =
  match intento requests_get url p n with
  | Ok body => (trace ++ [Get], Ok body)
  | Raise e =>
      if is_RequestException e then
        retry_loop requests_get url p fuel (S n)
          (if (S n <? max_retries)%nat then (trace ++ [Get]) ++ [Sleep]
           else trace ++ [Get])
      else (trace ++ [Get], Raise e)
  end.
Proof.
  cbn [retry_loop]. destruct (intento requests_get url p n) as [b|e];
    [reflexivity|].
  rewrite timeout_is_request_exception. reflexivity.
Qed.

(** The loop never sends more than [max_retries] requests. *)
Lemma retry_loop_gets (url : string) (p : params) (fuel n : nat)
    (trace : list event) :
  (length (List.filter (fun ev => match ev with Get => true | Sleep => false end)
             (fst (retry_loop requests_get url p fuel n trace)))
   <= length (List.filter (fun ev => match ev with Get => true | Sleep => false end)
                trace) + fuel)%nat.
Proof.
  revert n trace. induction fuel as [|fuel IH]; intros n trace.
  - cbn. lia.
  - rewrite retry_loop_step.
    destruct (intento requests_get url p n) as [b|e].
    + cbn [fst]. rewrite List.filter_app, length_app. cbn. lia.
    + destruct (is_RequestException e).
      * etransitivity; [apply IH|].
        destruct (S n <? max_retries)%nat;
          rewrite ?List.filter_app, ?length_app; cbn; lia.
      * cbn [fst]. rewrite List.filter_app, length_app. cbn. lia.
Qed.

(** C2, as stated: a response with status 500 is not surfaced at once; the
    client sleeps, asks again and returns the body of the second answer. *)
Lemma http_error_status_is_retried :
  let net :=
    Sample.scripted [Sample.status_response 500;
                     Sample.ok_response (PDict [("cod", PNum 200)])] in
  let p := {| lat := 4.6; lon := -74.1; appid := "k";
              units := "metric"; lang := "es" |} in
  (exists r, net (base_url ++ "/weather")%string p 0%nat = Ok r /\
             ~ (200 <= status_code r < 300)) /\
  _make_request_trace net "weather" p
  = ([Get; Sleep; Get], Ok (PDict [("cod", PNum 200)])).
Proof.
  cbv zeta. split; [|reflexivity].
  eexists. split; [reflexivity|]. cbn. lia.
Qed.

(** C2, amended: a response with a 4xx or 5xx status fails the attempt the
    way a timeout or a transport error does; a failed attempt is followed,
    after the delay, by the next one as long as fewer than 3 were made, the
    first attempt that does not fail this way ends the request with its
    outcome, and 3 failed attempts end it with [RequestException]. *)
Theorem make_request_retries (endpoint : string) (p : params) :
  let url := (base_url ++ "/" ++ endpoint)%string in
  let fails n :=
    exists e, intento requests_get url p n = Raise e /\
              is_RequestException e = true in
  (forall n r, requests_get url p n = Ok r -> 400 <= status_code r < 600 ->
               fails n) /\
  (forall n e, requests_get url p n = Raise e ->
               is_RequestException e = true -> fails n) /\
  (~ fails 0%nat ->
   _make_request_trace requests_get endpoint p
   = ([Get], intento requests_get url p 0)) /\
  (fails 0%nat -> ~ fails 1%nat ->
   _make_request_trace requests_get endpoint p
   = ([Get; Sleep; Get], intento requests_get url p 1)) /\
  (fails 0%nat -> fails 1%nat -> ~ fails 2%nat ->
   _make_request_trace requests_get endpoint p
   = ([Get; Sleep; Get; Sleep; Get], intento requests_get url p 2)) /\
  (fails 0%nat -> fails 1%nat -> fails 2%nat ->
   _make_request_trace requests_get endpoint p
   = ([Get; Sleep; Get; Sleep; Get], Raise RequestException)).
Proof.
  intros url fails.
  assert (Hdec : forall n,
            (fails n /\ exists e, intento requests_get url p n = Raise e /\
                                  is_RequestException e = true) \/
            (~ fails n /\
             ((exists b, intento requests_get url p n = Ok b) \/
              exists e, intento requests_get url p n = Raise e /\
                        is_RequestException e = false))).
  { intros n. subst fails. cbv beta.
    destruct (intento requests_get url p n) as [b|e] eqn:E.
    - right. split; [intros (e & He & _); discriminate He|]. left. eauto.
    - destruct (is_RequestException e) eqn:Ee.
      + left. split; exists e; auto.
      + right. split; [|right; eauto].
        intros (e' & He' & Hr). injection He' as <-. congruence. }
  split; [|split].
  - intros n r Hr Hs. exists HTTPError. split; [|reflexivity].
    eapply intento_http_error; eassumption.
  - intros n e Hr He. exists e. split; [|exact He].
    apply intento_raise. exact Hr.
  - unfold _make_request_trace, max_retries. fold url.
    destruct (Hdec 0%nat) as [[F0 (e0 & E0 & R0)]|[N0 H0]];
      destruct (Hdec 1%nat) as [[F1 (e1 & E1 & R1)]|[N1 H1]];
      destruct (Hdec 2%nat) as [[F2 (e2 & E2 & R2)]|[N2 H2]];
      (repeat split; intros; try tauto);
      rewrite !retry_loop_step;
      repeat match goal with
        | Hx : (exists b, _ = Ok b) \/ _ |- _ =>
            destruct Hx as [(? & Hx)|(? & Hx & ?)]
        end;
      repeat match goal with
        | Hx : intento _ _ _ _ = _ |- _ => rewrite Hx
        | Hx : is_RequestException _ = _ |- _ => rewrite Hx
        end; reflexivity.
Qed.

End Retries.

Lemma make_request_retries_witness :
  let net :=
    Sample.scripted [Sample.status_response 404; Raise Timeout;
                     Sample.ok_response (PDict [("cod", PNum 200)])] in
  let p := {| WeatherService.lat := 4.6; WeatherService.lon := -74.1;
              WeatherService.appid := "k"; WeatherService.units := "metric";
              WeatherService.lang := "es" |} in
  WeatherService._make_request_trace net "forecast" p
  = ([WeatherService.Get; WeatherService.Sleep; WeatherService.Get;
      WeatherService.Sleep; WeatherService.Get],
     Ok (PDict [("cod", PNum 200)])).
Proof.
  cbv zeta.
  apply (make_request_retries
           (Sample.scripted [Sample.status_response 404; Raise Timeout;
                             Sample.ok_response (PDict [("cod", PNum 200)])])
           "forecast").
  - exists HTTPError. split; reflexivity.
  - exists Timeout. split; reflexivity.
  - intros (e & He & _). discriminate He.
Defined.

(** ** Current weather *)


Section CurrentWeather.
Import WeatherService.
Context `{Builtins}.

Variable requests_get : string -> params -> nat -> result response.
Variable api_key : string.

Lemma all_in_main (m : list (string * pyval)) :
  all_in (PDict m) ["temp"; "humidity"]
  = Ok (match assoc "temp" m, assoc "humidity" m with
        | Some _, Some _ => true
        | _, _ => false
        end).
Proof.
  unfold all_in. cbn.
  destruct (assoc "temp" m); [|reflexivity].
  destruct (assoc "humidity" m); reflexivity.
Qed.




(** Without a wind object the normalisation fails, although [speed] has a
    default: the source writes [data["wind"].get("speed", 0)], where the
    rain next to it is read with [data.get("rain", {})]. *)
Lemma current_weather_without_wind (lat lon : Q)
    (d m : list (string * pyval)) (t h : Q) :
  _make_request requests_get "weather" (mk_params api_key lat lon)
  = Ok (PDict d) ->
  assoc "main" d = Some (PDict m) ->
  assoc "temp" m = Some (PNum t) ->
  assoc "humidity" m = Some (PNum h) ->
  assoc "wind" d = None ->
  get_current_weather requests_get api_key lat lon = Raise ValueError.
Proof.
  intros Hreq Hmain Ht Hh Hw. unfold get_current_weather. rewrite Hreq.
  cbn [bind get]. rewrite Hmain. cbn [bind]. rewrite all_in_main, Ht, Hh.
  cbn [bind negb getitem]. rewrite Hmain. cbn [bind getitem].
  rewrite Ht, Hh. cbn [bind float int]. unfold wind_kmh. cbn [bind getitem].
  rewrite Hw. reflexivity.
Qed.


End CurrentWeather.


(** ** Forecast *)

Section Forecast.
Import WeatherService.
Context `{Builtins}.

Variable requests_get : string -> params -> nat -> result response.
Variable api_key : string.

Lemma build_forecast_fecha (item : pyval) (dt : datetime) (f : Forecast.t) :
  build_forecast item dt = Ok f -> Forecast.fecha f = date_str dt.
Proof.
  unfold build_forecast, bind. intros Hb.
  repeat match type of Hb with
    | match ?r with Ok _ => _ | Raise _ => _ end = _ =>
        destruct r; [|discriminate Hb]
    end.
  injection Hb as <-. reflexivity.
Qed.

Lemma midday_sample_date (item : pyval) (dt : datetime) (d : string) :
  item_datetime item = Ok dt -> midday dt = true ->
  midday_sample item d <-> d = date_str dt.
Proof.
  intros Hdt Hm. split.
  - intros (dt' & Hdt' & _ & <-). congruence.
  - intros ->. exists dt. auto.
Qed.

Lemma loop_inv_init (items : list pyval) : loop_inv items [] [] ∅ [].
Proof.
  split.
  - constructor.
  - constructor.
  - constructor.
  - intros d. split.
    + intros Hd. apply elem_of_empty in Hd. contradiction.
    + intros (j & item & Hj & _). cbn in Hj. lia.
  - constructor.
  - constructor.
Qed.

(** Consuming a sample that enters no entry. *)
Lemma loop_inv_next (items pre : list pyval) (item : pyval)
    (daily : list Forecast.t) (seen seen' : gset string) (idxs : list nat) :
  loop_inv items pre daily seen idxs ->
  items !! length pre = Some item ->
  (forall d, d ∈ seen' <-> d ∈ seen \/ midday_sample item d) ->
  loop_inv items (pre ++ [item]) daily seen' idxs.
Proof.
  intros [Hsrc Hsort Hbound Hseen Hdates Hnodup] Hitem Hseen'.
  split; try assumption.
  - eapply Forall_impl; [exact Hbound|].
    intros i Hi. cbn beta in *. rewrite length_app. cbn. lia.
  - intros d. rewrite Hseen', Hseen, length_app. cbn [length]. split.
    + intros [(j & it & Hj & Hit & Hm)|Hm].
      * exists j, it. split; [lia|]. auto.
      * exists (length pre), item. split; [lia|]. auto.
    + intros (j & it & Hj & Hit & Hm).
      destruct (decide (j = length pre)) as [->|Hne].
      * right. congruence.
      * left. exists j, it. split; [lia|]. auto.
  - eapply Forall_impl; [exact Hdates|].
    intros f Hf. cbn beta in *. apply Hseen'. left. exact Hf.
Qed.

(** Consuming the sample a new entry is built from. *)
Lemma loop_inv_add (items pre : list pyval) (item : pyval) (dt : datetime)
    (f : Forecast.t) (daily : list Forecast.t) (seen : gset string)
    (idxs : list nat) :
  loop_inv items pre daily seen idxs ->
  items !! length pre = Some item ->
  item_datetime item = Ok dt -> midday dt = true ->
  date_str dt ∉ seen ->
  build_forecast item dt = Ok f ->
  loop_inv items (pre ++ [item]) (daily ++ [f]) ({[date_str dt]} ∪ seen)
    (idxs ++ [length pre]).
Proof.
  intros Hinv Hitem Hdt Hm Hfresh Hb.
  assert (Hnext : loop_inv items (pre ++ [item]) daily
                    ({[date_str dt]} ∪ seen) idxs).
  { eapply loop_inv_next; [exact Hinv|exact Hitem|].
    intros d. rewrite (midday_sample_date item dt d Hdt Hm).
    rewrite elem_of_union, elem_of_singleton. tauto. }
  destruct Hinv as [_ _ Hbound Hseen Hdates _].
  destruct Hnext as [Hsrc' Hsort' Hbound' Hseen' Hdates' Hnodup'].
  pose proof (build_forecast_fecha item dt f Hb) as Hfecha.
  split.
  - apply Forall2_app; [exact Hsrc'|]. constructor; [|constructor].
    exists item, dt. repeat split; try assumption.
    intros j item' Hj Hit' Hmid. apply Hfresh. apply Hseen.
    exists j, item'. auto.
  - apply StronglySorted_app_2; [|exact Hsort'|repeat constructor].
    intros i1 i2 Hi1 Hi2. apply list_elem_of_singleton in Hi2 as ->.
    rewrite Forall_forall in Hbound. apply Hbound. exact Hi1.
  - apply Forall_app. split; [exact Hbound'|].
    constructor; [|constructor]. rewrite length_app. cbn. lia.
  - exact Hseen'.
  - apply Forall_app. split; [exact Hdates'|].
    constructor; [|constructor]. rewrite Hfecha.
    apply elem_of_union_l, elem_of_singleton. reflexivity.
  - rewrite fmap_app. apply NoDup_app. split; [exact Hnodup'|]. split.
    + intros d Hd Hd'. cbn in Hd'. apply list_elem_of_singleton in Hd' as ->.
      apply list_elem_of_fmap in Hd as (f' & Hf' & Hin).
      rewrite Forall_forall in Hdates. apply Hfresh.
      rewrite <- Hfecha, Hf'. apply Hdates. exact Hin.
    + cbn. apply NoDup_singleton.
Qed.

(** The loop keeps the invariant and stops at 5 entries. *)
Lemma forecast_loop_inv (items : list pyval) :
  forall (rest pre : list pyval) (daily : list Forecast.t)
         (seen : gset string) (idxs : list nat) (l : list Forecast.t),
    items = pre ++ rest ->
    (length daily < 5)%nat ->
    loop_inv items pre daily seen idxs ->
    forecast_loop rest daily seen = Ok l ->
    (length l <= 5)%nat /\
    exists pre' seen' idxs', loop_inv items pre' l seen' idxs'.
Proof.
  induction rest as [|item rest IH]; intros pre daily seen idxs l Hitems Hlen
    Hinv Hloop.
  - cbn in Hloop. injection Hloop as <-. split; [lia|]. eauto.
  - assert (Hitem : items !! length pre = Some item).
    { rewrite Hitems. apply list_lookup_middle. reflexivity. }
    assert (Hitems' : items = (pre ++ [item]) ++ rest).
    { rewrite Hitems, <- app_assoc. reflexivity. }
    cbn [forecast_loop] in Hloop.
    destruct (item_datetime item) as [dt|e] eqn:Hdt.
    + destruct (midday dt) eqn:Hm; cbn [andb] in Hloop.
      * destruct (bool_decide (date_str dt ∈ seen)) eqn:Hseen;
          cbn [negb] in Hloop.
        -- apply bool_decide_eq_true in Hseen.
           eapply (IH (pre ++ [item])); [exact Hitems'|exact Hlen| |exact Hloop].
           eapply loop_inv_next; [exact Hinv|exact Hitem|].
           intros d. rewrite (midday_sample_date item dt d Hdt Hm).
           split; [auto|]. intros [Hd| ->]; assumption.
        -- apply bool_decide_eq_false in Hseen.
           destruct (build_forecast item dt) as [f|e] eqn:Hb.
           ++ pose proof (loop_inv_add items pre item dt f daily seen idxs
                            Hinv Hitem Hdt Hm Hseen Hb) as Hinv'.
              destruct (5 <=? length (daily ++ [f]))%nat eqn:Hfull.
              ** injection Hloop as <-. split; [|eauto].
                 rewrite length_app. cbn. lia.
              ** apply Nat.leb_gt in Hfull.
                 eapply (IH (pre ++ [item]));
                   [exact Hitems'|exact Hfull|exact Hinv'|exact Hloop].
           ++ destruct (key_value_type e); [|discriminate Hloop].
              eapply (IH (pre ++ [item]));
                [exact Hitems'|exact Hlen| |exact Hloop].
              eapply loop_inv_next; [exact Hinv|exact Hitem|].
              intros d. rewrite (midday_sample_date item dt d Hdt Hm).
              rewrite elem_of_union, elem_of_singleton. tauto.
      * eapply (IH (pre ++ [item])); [exact Hitems'|exact Hlen| |exact Hloop].
        eapply loop_inv_next; [exact Hinv|exact Hitem|].
        intros d. split; [auto|]. intros [Hd|(dt' & Hdt' & Hm' & _)];
          [exact Hd|]. congruence.
    + destruct (key_value_type e); [|discriminate Hloop].
      eapply (IH (pre ++ [item])); [exact Hitems'|exact Hlen| |exact Hloop].
      eapply loop_inv_next; [exact Hinv|exact Hitem|].
      intros d. split; [auto|]. intros [Hd|(dt' & Hdt' & _)];
        [exact Hd|]. congruence.
Qed.

(** [dt.hour in [11, 12, 13]] holds of the local hours 11, 12 and 13, and
    of no other. *)
Lemma midday_hours (dt : datetime) :
  midday dt = true <-> hour dt = 11 \/ hour dt = 12 \/ hour dt = 13.
Proof.
  unfold midday. cbn [existsb].
  rewrite !orb_true_iff, !Z.eqb_eq. intuition congruence.
Qed.

(** An entry taken from a sample, in terms of the local hour of the samples
    of the feed. *)
Lemma sourced_hours (items : list pyval) (f : Forecast.t) (i : nat) :
  sourced items f i ->
  exists item dt,
    items !! i = Some item /\
    item_datetime item = Ok dt /\
    (hour dt = 11 \/ hour dt = 12 \/ hour dt = 13) /\
    build_forecast item dt = Ok f /\
    Forecast.fecha f = date_str dt /\
    forall j item' dt', (j < i)%nat -> items !! j = Some item' ->
      item_datetime item' = Ok dt' ->
      (hour dt' = 11 \/ hour dt' = 12 \/ hour dt' = 13) ->
      date_str dt' <> date_str dt.
Proof.
  intros (item & dt & Hi & Hdt & Hmid & Hf & Hfecha & Hfirst).
  exists item, dt. repeat split; try assumption.
  - apply midday_hours, Hmid.
  - intros j item' dt' Hj Hj' Hdt' Hhour Hsame.
    apply (Hfirst j item' Hj Hj').
    exists dt'. repeat split; [exact Hdt'|apply midday_hours, Hhour|exact Hsame].
Qed.

(** C4: the forecast has at most 5 entries, their dates are pairwise
    distinct, they come in the order of the samples they were taken from,
    and each is built from a sample whose local hour is 11, 12 or 13 and
    which is the first sample of its local date with such an hour. *)
Theorem get_forecast_entries (lat lon : Q) (l : list Forecast.t) :
  get_forecast requests_get api_key lat lon = Ok l ->
  exists (data feed : pyval) (items : list pyval),
    _make_request requests_get "forecast" (mk_params api_key lat lon)
    = Ok data /\
    getitem data "list" = Ok feed /\
    iterate feed = Ok items /\
    (0 < length l <= 5)%nat /\
    NoDup (Forecast.fecha <$> l) /\
    exists idxs : list nat,
      StronglySorted lt idxs /\
      Forall2
        (fun (f : Forecast.t) (i : nat) =>
           exists item dt,
             items !! i = Some item /\
             item_datetime item = Ok dt /\
             (hour dt = 11 \/ hour dt = 12 \/ hour dt = 13) /\
             build_forecast item dt = Ok f /\
             Forecast.fecha f = date_str dt /\
             forall j item' dt', (j < i)%nat -> items !! j = Some item' ->
               item_datetime item' = Ok dt' ->
               (hour dt' = 11 \/ hour dt' = 12 \/ hour dt' = 13) ->
               date_str dt' <> date_str dt)
        l idxs.
Proof.
  unfold get_forecast, try_except, any_exception. intros Hget.
  destruct (_make_request requests_get "forecast" (mk_params api_key lat lon))
    as [data|e] eqn:Hreq; [|discriminate Hget].
  cbn [bind] in Hget.
  destruct (contains data "list") as [has|e]; [|discriminate Hget].
  cbn [bind] in Hget.
  destruct has; cbn [bind] in Hget; [|discriminate Hget].
  destruct (getitem data "list") as [feed|e] eqn:Hfeed; [|discriminate Hget].
  cbn [bind] in Hget.
  destruct (negb (truthy feed)); [discriminate Hget|].
  destruct (iterate feed) as [items|e] eqn:Hitems; [|discriminate Hget].
  cbn [bind] in Hget.
  destruct (forecast_loop items [] ∅) as [daily|e] eqn:Hloop;
    [|discriminate Hget].
  cbn [bind] in Hget.
  destruct daily as [|f daily]; [discriminate Hget|].
  injection Hget as <-.
  destruct (forecast_loop_inv items items [] [] ∅ [] (f :: daily))
    as (Hlen & pre' & seen' & idxs' & Hinv);
    [reflexivity|cbn; lia|apply loop_inv_init|exact Hloop|].
  exists data, feed, items. repeat split; try assumption.
  - cbn. lia.
  - exact (inv_nodup _ _ _ _ _ Hinv).
  - exists idxs'. split.
    + exact (inv_sorted _ _ _ _ _ Hinv).
    + eapply Forall2_impl; [exact (inv_sourced _ _ _ _ _ Hinv)|].
      intros f' i Hsrc. exact (sourced_hours items f' i Hsrc).
Qed.

End Forecast.

Lemma get_forecast_entries_witness :
  let samples :=
    [Sample.sample 1717405200 18.2 70 2;    (* 2024-06-03 09:00 *)
     Sample.sample 1717416000 24.96 55 3;   (* 2024-06-03 12:00 *)
     Sample.sample 1717419600 25.4 52 4;    (* 2024-06-03 13:00 *)
     PDict [("dt", PNum 1717502400)];       (* 2024-06-04 12:00 *)
     Sample.sample 1717506000 21 88 9;      (* 2024-06-04 13:00 *)
     Sample.sample 1717588800 19.5 91 10]   (* 2024-06-05 12:00 *) in
  let net :=
    Sample.scripted [Sample.ok_response (PDict [("list", PList samples)])] in
  exists l,
    @WeatherService.get_forecast Sample.builtins net "k" 4.6 (-74.1) = Ok l /\
    (WeatherService.Forecast.fecha <$> l) = ["2024-06-03"; "2024-06-05"] /\
    (WeatherService.Forecast.temperatura <$> l) = [25%Q; (39 # 2)%Q] /\
    (0 < length l <= 5)%nat /\
    NoDup (WeatherService.Forecast.fecha <$> l) /\
    exists idxs : list nat,
      StronglySorted lt idxs /\
      Forall2
        (fun (f : WeatherService.Forecast.t) (i : nat) =>
           exists item dt,
             samples !! i = Some item /\
             @WeatherService.item_datetime Sample.builtins item = Ok dt /\
             (hour dt = 11 \/ hour dt = 12 \/ hour dt = 13) /\
             @WeatherService.build_forecast Sample.builtins item dt = Ok f)
        l idxs.
Proof.
  cbv zeta. eexists. split; [vm_compute; reflexivity|].
  split; [reflexivity|]. split; [reflexivity|].
  match goal with |- (_ < length ?l <= _)%nat /\ _ =>
    destruct (@get_forecast_entries Sample.builtins
                (Sample.scripted
                   [Sample.ok_response
                      (PDict [("list",
                               PList [Sample.sample 1717405200 18.2 70 2;
                                      Sample.sample 1717416000 24.96 55 3;
                                      Sample.sample 1717419600 25.4 52 4;
                                      PDict [("dt", PNum 1717502400)];
                                      Sample.sample 1717506000 21 88 9;
                                      Sample.sample 1717588800 19.5 91 10])])])
                "k" 4.6 (-74.1) l)
      as (data & feed & items & Hreq & Hfeed & Hitems & Hlen & Hnodup
          & idxs & Hsorted & Hall)
  end; [vm_compute; reflexivity|].
  injection Hreq as <-. injection Hfeed as <-. injection Hitems as <-.
  split; [exact Hlen|]. split; [exact Hnodup|].
  exists idxs. split; [exact Hsorted|].
  eapply Forall2_impl; [exact Hall|].
  intros f i (item & dt & Hi & Hdt & Hhour & Hf & _).
  exists item, dt. repeat split; assumption.
Defined.

(** ** Weekly analysis *)

Section Analysis.
Context `{Builtins}.

Lemma leer_dia_dict (dia : pyval) (x : Q * Q * Q) :
  leer_dia dia = Ok x -> exists d, dia = PDict d.
Proof.
  destruct dia; try discriminate. eauto.
Qed.

(** Building the pattern of a day that was read never raises. *)
Lemma construir_patron_ok (d : list (string * pyval)) (temp hum vnt : Q) :
  exists p r,
    construir_patron (PDict d) temp hum vnt = Ok p /\
    temp_de p = temp /\ hum_de p = hum /\ viento_de p = vnt /\
    _evaluar_riesgo_cultivo temp hum vnt = Ok r /\ riesgo p = r.
Proof.
  destruct (evaluar_riesgo_nivel temp hum vnt) as (r & Hr & _).
  unfold construir_patron. cbn [get bind].
  destruct (assoc "dia" d), (assoc "fecha" d); cbn [bind];
    rewrite categorizar_temperatura_num, categorizar_humedad_num,
      categorizar_viento_num, Hr; cbn [bind];
    eexists; exists r; repeat split; reflexivity.
Qed.

(** One turn of the loop either skips the day or adds exactly one element
    to each series and one pattern that records the three values. *)
Lemma procesar_dia_step (st st' : estado) (dia : pyval) :
  procesar_dia st dia = Ok st' ->
  st' = st \/
  exists p,
    patrones st' = patrones st ++ [p] /\
    temperaturas st' = temperaturas st ++ [temp_de p] /\
    humedades st' = humedades st ++ [hum_de p] /\
    vientos st' = vientos st ++ [viento_de p] /\
    riesgo_ok p.
Proof.
  unfold procesar_dia. intros Hstep.
  destruct (leer_dia dia) as [[[temp hum] vnt]|e] eqn:Hleer.
  - destruct (leer_dia_dict dia _ Hleer) as [d ->].
    destruct (construir_patron_ok d temp hum vnt)
      as (p & r & Hp & Ht & Hh & Hv & Hr & Hpr).
    rewrite Hp in Hstep. injection Hstep as <-.
    right. exists p. unfold riesgo_ok. cbn. rewrite Ht, Hh, Hv, Hpr. auto.
  - destruct (value_type e); [|discriminate Hstep].
    injection Hstep as <-. left. reflexivity.
Qed.

Lemma procesar_dias_series (datos : list pyval) :
  forall st st',
    series_ok st -> Forall riesgo_ok (patrones st) ->
    procesar_dias datos st = Ok st' ->
    series_ok st' /\ Forall riesgo_ok (patrones st').
Proof.
  induction datos as [|dia datos IH]; intros st st' Hok Hrs Hrun.
  - cbn in Hrun. injection Hrun as <-. auto.
  - cbn [procesar_dias bind] in Hrun.
    destruct (procesar_dia st dia) as [st1|e] eqn:Hstep; [|discriminate Hrun].
    destruct (procesar_dia_step st st1 dia Hstep)
      as [->|(p & Hp & Ht & Hh & Hv & Hr)]; [eauto|].
    apply (IH st1 st'); [| |exact Hrun].
    + destruct Hok as (Ht0 & Hh0 & Hv0). unfold series_ok.
      rewrite Hp, Ht, Hh, Hv, Ht0, Hh0, Hv0, !map_app. auto.
    + rewrite Hp. apply Forall_app. auto.
Qed.

Lemma generar_recomendaciones_eq (a : analisis)
    (temps hums vnts : list Q) :
  exists q,
    _calcular_tendencia (map PNum temps) = Ok q /\
    _generar_recomendaciones a temps hums vnts
    = {| patrones_diarios := patrones_diarios a;
         recomendaciones :=
           recomendaciones a
           ++ (if Qgtb q 0.5 then [recomendacion_riego] else []);
         alertas :=
           alertas a
           ++ (if existsb (fun h => Qgtb h 80) hums then [alerta_hongos]
               else [])
           ++ (if existsb (fun v => Qgtb v 30) vnts then [alerta_viento]
               else []);
         resumen_semanal := resumen_semanal a |}.
Proof.
  destruct (calcular_tendencia_total (map PNum temps)) as [q Hq].
  exists q. split; [exact Hq|].
  unfold _generar_recomendaciones. rewrite Hq. cbn [bind].
  destruct a as [ps rs als r].
  destruct (Qgtb q 0.5), (existsb (fun h => Qgtb h 80) hums),
    (existsb (fun v => Qgtb v 30) vnts);
    unfold add_alerta, add_recomendacion; cbn;
    rewrite ?app_nil_r, <- ?app_assoc; reflexivity.
Qed.

Lemma generar_resumen_ok (temps hums vnts : list Q) (tt th : Q) :
  exists r,
    _generar_resumen temps hums vnts tt th = Ok r /\
    temperatura_promedio r = promedio temps /\
    humedad_promedio r = promedio hums /\
    viento_promedio r = promedio vnts.
Proof.
  unfold _generar_resumen. rewrite !interpretar_tendencia_num. cbn.
  eexists. repeat split; reflexivity.
Qed.

(** What a successful analysis consists of. *)
Lemma analizar_datos_ok (datos : list pyval) (a : analisis) :
  analizar_datos datos = Ok a ->
  exists st q r,
    procesar_dias datos estado_inicial = Ok st /\
    series_ok st /\ Forall riesgo_ok (patrones st) /\
    patrones st <> [] /\
    _calcular_tendencia (map PNum (temperaturas st)) = Ok q /\
    patrones_diarios a = patrones st /\
    recomendaciones a = (if Qgtb q 0.5 then [recomendacion_riego] else []) /\
    alertas a
    = (if existsb (fun h => Qgtb h 80) (humedades st) then [alerta_hongos]
       else [])
      ++ (if existsb (fun v => Qgtb v 30) (vientos st) then [alerta_viento]
          else []) /\
    resumen_semanal a = Some r /\
    temperatura_promedio r = promedio (temperaturas st) /\
    humedad_promedio r = promedio (humedades st) /\
    viento_promedio r = promedio (vientos st).
Proof.
  unfold analizar_datos. intros Hrun.
  destruct datos as [|dia datos]; [discriminate Hrun|].
  destruct (procesar_dias (dia :: datos) estado_inicial) as [st|e] eqn:Hst;
    [|discriminate Hrun].
  cbn [bind] in Hrun.
  destruct (patrones st) as [|p ps] eqn:Hps; [discriminate Hrun|].
  destruct (procesar_dias_series (dia :: datos) estado_inicial st)
    as [Hser Hrs]; [repeat split|constructor|exact Hst|].
  destruct (generar_recomendaciones_eq
              {| patrones_diarios := p :: ps; recomendaciones := [];
                 alertas := []; resumen_semanal := None |}
              (temperaturas st) (humedades st) (vientos st))
    as (q & Hq & Hrec).
  rewrite Hq, Hrec in Hrun. cbn [bind] in Hrun.
  destruct (calcular_tendencia_total (map PNum (humedades st))) as [qh Hqh].
  rewrite Hqh in Hrun. cbn [bind] in Hrun.
  destruct (generar_resumen_ok (temperaturas st) (humedades st) (vientos st)
              q qh) as (r & Hr & Hrt & Hrh & Hrv).
  rewrite Hr in Hrun. cbn [bind] in Hrun. injection Hrun as <-.
  exists st, q, r. cbn.
  split; [reflexivity|]. split; [exact Hser|]. split; [exact Hrs|].
  split; [rewrite Hps; discriminate|]. split; [exact Hq|].
  split; [symmetry; exact Hps|].
  repeat split; assumption.
Qed.

Variable get_forecast : Q -> Q -> result (list pyval).

Lemma analizar_patron_semanal_datos (lat lon : Q) (a : analisis) :
  analizar_patron_semanal get_forecast lat lon = Ok a ->
  exists datos,
    get_forecast lat lon = Ok datos /\ analizar_datos datos = Ok a.
Proof.
  unfold analizar_patron_semanal, try_except, any_exception. intros Hrun.
  destruct (negb (Qle_bool (-90) lat && Qle_bool lat 90)
            || negb (Qle_bool (-180) lon && Qle_bool lon 180));
    [discriminate Hrun|].
  destruct (get_forecast lat lon) as [datos|e]; [|discriminate Hrun].
  cbn [bind] in Hrun. exists datos. split; [reflexivity|].
  destruct (analizar_datos datos); [exact Hrun|discriminate Hrun].
Qed.





(** C9: a successful weekly analysis holds at most one fungal-risk alert
    and at most one strong-wind alert, so at most 2 alerts, and at most
    one recommendation, the irrigation one. *)
Theorem alertas_unicas (lat lon : Q) (a : analisis) :
  analizar_patron_semanal get_forecast lat lon = Ok a ->
  (length (List.filter (fun x => String.eqb (tipo x) "hongos") (alertas a))
   <= 1)%nat /\
  (length (List.filter (fun x => String.eqb (tipo x) "viento") (alertas a))
   <= 1)%nat /\
  (length (alertas a) <= 2)%nat /\
  (length (recomendaciones a) <= 1)%nat /\
  (forall x, In x (recomendaciones a) -> rec_tipo x = "riego").
Proof.
  intros Hrun.
  destruct (analizar_patron_semanal_datos lat lon a Hrun) as (datos & _ & Ha).
  destruct (analizar_datos_ok datos a Ha)
    as (st & q & r & _ & _ & _ & _ & _ & _ & Hrec & Hal & _).
  rewrite Hal, Hrec.
  destruct (existsb (fun h => Qgtb h 80) (humedades st)),
    (existsb (fun v => Qgtb v 30) (vientos st)), (Qgtb q 0.5); cbn;
    repeat split; try lia; intros x Hx; cbn in Hx;
    destruct Hx as [<-|[]]; reflexivity.
Qed.


End Analysis.


Lemma alertas_unicas_witness :
  exists a,
    @analizar_patron_semanal Sample.builtins
      (@servicio Sample.builtins Sample.proveedor "k") 4.6 (-74.1) = Ok a /\
    length (alertas a) = 2%nat /\
    (length (List.filter (fun x => String.eqb (tipo x) "hongos") (alertas a))
     <= 1)%nat.
Proof.
  eexists. split; [vm_compute; reflexivity|].
  split; [reflexivity|].
  match goal with |- (length (List.filter _ (alertas ?a)) <= _)%nat =>
    apply (@alertas_unicas Sample.builtins
             (@servicio Sample.builtins Sample.proveedor "k")
             4.6 (-74.1) a ltac:(vm_compute; reflexivity))
  end.
Defined.


(** * Further properties *)

(** ** The request loop *)

Section RequestLoop.
Import WeatherService.

Variable requests_get : string -> params -> nat -> result response.

Lemma raise_for_status_ok (r : response) :
  raise_for_status r = Ok tt -> ~ (400 <= status_code r < 600).
Proof.
  unfold raise_for_status. intros Hok [Hlo Hhi].
  apply Z.leb_le in Hlo. apply Z.ltb_lt in Hhi.
  rewrite Hlo, Hhi in Hok. discriminate Hok.
Qed.

Lemma intento_ok (url : string) (p : params) (n : nat) (body : pyval) :
  intento requests_get url p n = Ok body ->
  exists r, requests_get url p n = Ok r /\
            ~ (400 <= status_code r < 600) /\ body = json r.
Proof.
  unfold intento. intros Hok.
  destruct (requests_get url p n) as [r|e]; [|discriminate Hok].
  cbn [bind] in Hok.
  destruct (raise_for_status r) as [[]|e] eqn:Hs; [|discriminate Hok].
  injection Hok as <-. exists r.
  split; [reflexivity|]. split; [|reflexivity].
  apply raise_for_status_ok. exact Hs.
Qed.

(** The three turns of the loop, spelled out. *)
Lemma make_request_cases (endpoint : string) (p : params) :
  let url := (base_url ++ "/" ++ endpoint)%string in
  let t := intento requests_get url p in
  let retry r :=
    match r with Raise e => is_RequestException e | Ok _ => false end in
  _make_request_trace requests_get endpoint p =
  if retry (t 0%nat) then
    if retry (t 1%nat) then
      if retry (t 2%nat)
      then ([Get; Sleep; Get; Sleep; Get], Raise RequestException)
      else ([Get; Sleep; Get; Sleep; Get], t 2%nat)
    else ([Get; Sleep; Get], t 1%nat)
  else ([Get], t 0%nat).
Proof.
  intros url t retry. unfold _make_request_trace, max_retries. fold url.
  rewrite !retry_loop_step. fold t.
  destruct (t 0%nat) as [b0|e0]; cbn [retry]; [reflexivity|].
  destruct (is_RequestException e0); [|reflexivity].
  destruct (t 1%nat) as [b1|e1]; cbn [retry]; [reflexivity|].
  destruct (is_RequestException e1); [|reflexivity].
  destruct (t 2%nat) as [b2|e2]; cbn [retry]; [reflexivity|].
  destruct (is_RequestException e2); reflexivity.
Qed.

(** One request is followed by at most two more, each after one sleep; the
    client never sleeps after its last request. *)
Theorem make_request_trace_shape (endpoint : string) (p : params) :
  exists k : nat,
    (k <= 2)%nat /\
    fst (_make_request_trace requests_get endpoint p)
    = Get :: concat (replicate k [Sleep; Get]).
Proof.
  rewrite make_request_cases. cbv zeta.
  repeat match goal with
    | |- context [if ?b then _ else _] => destruct b
    end; cbn [fst];
    first [ exists 0%nat; split; [lia|reflexivity]
          | exists 1%nat; split; [lia|reflexivity]
          | exists 2%nat; split; [lia|reflexivity] ].
Qed.

(** A body that [_make_request] returns is the body of one of the first
    three answers, one whose status is not 4xx or 5xx, and every attempt
    before it failed with an exception of the requests library. *)
Theorem make_request_ok (endpoint : string) (p : params) (body : pyval) :
  _make_request requests_get endpoint p = Ok body ->
  let url := (base_url ++ "/" ++ endpoint)%string in
  exists (n : nat) (r : response),
    (n < 3)%nat /\
    requests_get url p n = Ok r /\
    ~ (400 <= status_code r < 600) /\
    body = json r /\
    forall m, (m < n)%nat ->
      exists e, intento requests_get url p m = Raise e /\
                is_RequestException e = true.
Proof.
  unfold _make_request. rewrite make_request_cases. cbv zeta.
  set (url := (base_url ++ "/" ++ endpoint)%string).
  destruct (intento requests_get url p 0) as [b0|e0] eqn:E0.
  - cbn. intros [= <-].
    destruct (intento_ok url p 0 b0 E0) as (r & Hr & Hs & Hb).
    exists 0%nat, r. repeat split; try assumption; try lia.
  - destruct (is_RequestException e0) eqn:R0;
      [|cbn; intros Hx; discriminate Hx].
    destruct (intento requests_get url p 1) as [b1|e1] eqn:E1.
    + cbn. intros [= <-].
      destruct (intento_ok url p 1 b1 E1) as (r & Hr & Hs & Hb).
      exists 1%nat, r. repeat split; try assumption; try lia.
      intros m Hm. assert (m = 0%nat) as -> by lia. eauto.
    + destruct (is_RequestException e1) eqn:R1;
        [|cbn; intros Hx; discriminate Hx].
      destruct (intento requests_get url p 2) as [b2|e2] eqn:E2.
      * cbn. intros [= <-].
        destruct (intento_ok url p 2 b2 E2) as (r & Hr & Hs & Hb).
        exists 2%nat, r. repeat split; try assumption; try lia.
        intros m Hm.
        assert (m = 0%nat \/ m = 1%nat) as [-> | ->] by lia; eauto.
      * destruct (is_RequestException e2); cbn; intros Hx; discriminate Hx.
Qed.

(** Three attempts that fail with an exception of the requests library end
    the request with [RequestException], whatever the three were. *)
Lemma make_request_exhausted (endpoint : string) (p : params) :
  let url := (base_url ++ "/" ++ endpoint)%string in
  (forall n, (n < 3)%nat ->
     exists e, intento requests_get url p n = Raise e /\
               is_RequestException e = true) ->
  _make_request requests_get endpoint p = Raise RequestException.
Proof.
  intros url Hfail. unfold _make_request. rewrite make_request_cases.
  cbv zeta. fold url.
  destruct (Hfail 0%nat) as (e0 & -> & ->); [lia|].
  destruct (Hfail 1%nat) as (e1 & -> & ->); [lia|].
  destruct (Hfail 2%nat) as (e2 & -> & ->); [lia|].
  reflexivity.
Qed.

End RequestLoop.

Lemma make_request_ok_witness :
  let net :=
    Sample.scripted [Raise Timeout;
                     Sample.ok_response (PDict [("cod", PNum 200)])] in
  let p := WeatherService.mk_params "k" 4.6 (-74.1) in
  exists (n : nat) (r : WeatherService.response),
    (n < 3)%nat /\
    net (WeatherService.base_url ++ "/weather")%string p n = Ok r /\
    ~ (400 <= WeatherService.status_code r < 600).
Proof.
  cbv zeta.
  destruct (make_request_ok
              (Sample.scripted
                 [Raise Timeout;
                  Sample.ok_response (PDict [("cod", PNum 200)])])
              "weather" (WeatherService.mk_params "k" 4.6 (-74.1))
              (PDict [("cod", PNum 200)]) eq_refl)
    as (n & r & Hn & Hr & Hs & _).
  exists n, r. auto.
Defined.

(** ** The two operations of the service *)

Section ServiceErrors.
Import WeatherService.
Context `{Builtins}.

Variable requests_get : string -> params -> nat -> result response.
Variable api_key : string.

(** When the provider cannot be reached (three attempts end in a timeout,
    an error status or a transport error), both operations raise
    [RequestException], not the [ValueError] of a malformed answer. *)
Theorem service_unreachable (lat lon : Q) :
  (forall endpoint n, (n < 3)%nat ->
     exists e,
       intento requests_get (base_url ++ "/" ++ endpoint)%string
         (mk_params api_key lat lon) n = Raise e /\
       is_RequestException e = true) ->
  get_current_weather requests_get api_key lat lon = Raise RequestException /\
  get_forecast requests_get api_key lat lon = Raise RequestException.
Proof.
  intros Hfail. unfold get_current_weather, get_forecast.
  rewrite !make_request_exhausted by (intros n Hn; apply Hfail; exact Hn).
  split; reflexivity.
Qed.

(** An answer without a forecast list, or with an empty one, is a
    [ValueError]. *)
Theorem get_forecast_without_list (lat lon : Q)
    (d : list (string * pyval)) :
  _make_request requests_get "forecast" (mk_params api_key lat lon)
  = Ok (PDict d) ->
  (assoc "list" d = None \/
   exists v, assoc "list" d = Some v /\ truthy v = false) ->
  get_forecast requests_get api_key lat lon = Raise ValueError.
Proof.
  intros Hreq Hlist. unfold get_forecast. rewrite Hreq.
  cbn [bind contains getitem].
  destruct Hlist as [Hnone|(v & Hv & Hfalsy)].
  - rewrite Hnone. reflexivity.
  - rewrite Hv. cbn [bind]. rewrite Hfalsy. reflexivity.
Qed.

Lemma forecast_loop_sin_mediodia (items : list pyval)
    (daily : list Forecast.t) (seen : gset string) :
  Forall pasa_de_largo items ->
  forecast_loop items daily seen = Ok daily.
Proof.
  induction 1 as [|item items Hitem _ IH]; [reflexivity|].
  cbn [forecast_loop]. unfold pasa_de_largo in Hitem.
  destruct (item_datetime item) as [dt|e]; rewrite Hitem; exact IH.
Qed.

(** A feed in which no sample falls at 11, 12 or 13 h local time gives no
    forecast at all: the operation raises [ValueError]. *)
Theorem get_forecast_sin_mediodia (lat lon : Q) (d : list (string * pyval))
    (items : list pyval) :
  _make_request requests_get "forecast" (mk_params api_key lat lon)
  = Ok (PDict d) ->
  assoc "list" d = Some (PList items) ->
  Forall pasa_de_largo items ->
  get_forecast requests_get api_key lat lon = Raise ValueError.
Proof.
  intros Hreq Hlist Hitems. unfold get_forecast. rewrite Hreq.
  cbn [bind contains getitem]. rewrite Hlist. cbn [bind truthy].
  destruct items as [|item items]; [reflexivity|].
  cbn [negb bind iterate].
  rewrite (forecast_loop_sin_mediodia (item :: items) [] ∅ Hitems).
  reflexivity.
Qed.

End ServiceErrors.

(** ** Which samples make it into the forecast *)

Section ForecastMore.
Import WeatherService.
Context `{Builtins}.

Variable requests_get : string -> params -> nat -> result response.
Variable api_key : string.

Lemma get_forecast_loop (lat lon : Q) (data feed : pyval)
    (items : list pyval) (l : list Forecast.t) :
  _make_request requests_get "forecast" (mk_params api_key lat lon)
  = Ok data ->
  getitem data "list" = Ok feed ->
  iterate feed = Ok items ->
  get_forecast requests_get api_key lat lon = Ok l ->
  forecast_loop items [] ∅ = Ok l.
Proof.
  intros Hreq Hfeed Hitems. unfold get_forecast, try_except. rewrite Hreq.
  cbn [bind]. destruct (contains data "list") as [[|]|e]; cbn [bind];
    try discriminate.
  rewrite Hfeed. cbn [bind].
  destruct (negb (truthy feed)); [discriminate|].
  rewrite Hitems. cbn [bind].
  destruct (forecast_loop items [] ∅) as [[|f daily]|e]; cbn [bind];
    try discriminate.
  intros [= <-]. reflexivity.
Qed.

Lemma completo_next (items : list pyval) (n : nat)
    (daily daily' : list Forecast.t) :
  completo items n daily ->
  (forall f, In f daily -> In f daily') ->
  (forall item dt f, primera_de_mediodia items n item dt ->
                     build_forecast item dt = Ok f -> In f daily') ->
  completo items (S n) daily'.
Proof.
  intros Hc Hsub Hn i item dt f Hi Hp Hb.
  destruct (decide (i = n)) as [->|Hne].
  - eapply Hn; eassumption.
  - apply Hsub. eapply (Hc i); [lia|eassumption|eassumption].
Qed.

(** When the loop ends with fewer than 5 entries it has consumed the whole
    feed and missed nothing it could build. *)
Lemma forecast_loop_completo (items : list pyval) :
  forall (rest pre : list pyval) (daily : list Forecast.t)
         (seen : gset string) (idxs : list nat) (l : list Forecast.t),
    items = pre ++ rest ->
    loop_inv items pre daily seen idxs ->
    completo items (length pre) daily ->
    forecast_loop rest daily seen = Ok l ->
    (length l < 5)%nat ->
    completo items (length items) l.
Proof.
  induction rest as [|item rest IH]; intros pre daily seen idxs l Hitems
    Hinv Hc Hloop Hlen.
  - cbn in Hloop. injection Hloop as <-.
    assert (length items = length pre) as ->
      by (rewrite Hitems, app_nil_r; reflexivity).
    exact Hc.
  - assert (Hitem : items !! length pre = Some item).
    { rewrite Hitems. apply list_lookup_middle. reflexivity. }
    assert (Hitems' : items = (pre ++ [item]) ++ rest).
    { rewrite Hitems, <- app_assoc. reflexivity. }
    assert (Hlen' : length (pre ++ [item]) = S (length pre)).
    { rewrite length_app. cbn. lia. }
    cbn [forecast_loop] in Hloop.
    destruct (item_datetime item) as [dt|e] eqn:Hdt.
    + destruct (midday dt) eqn:Hm; cbn [andb] in Hloop.
      * destruct (bool_decide (date_str dt ∈ seen)) eqn:Hseen;
          cbn [negb] in Hloop.
        -- apply bool_decide_eq_true in Hseen.
           eapply (IH (pre ++ [item])); [exact Hitems'| | |exact Hloop|exact Hlen].
           ++ eapply loop_inv_next; [exact Hinv|exact Hitem|].
              intros d. rewrite (midday_sample_date item dt d Hdt Hm).
              split; [auto|]. intros [Hd| ->]; assumption.
           ++ rewrite Hlen'. eapply completo_next; [exact Hc|auto|].
              intros item' dt' f (Hit' & Hdt' & _ & Hfirst) _. exfalso.
              assert (item' = item) as -> by congruence.
              assert (dt' = dt) as -> by congruence.
              apply (inv_seen _ _ _ _ _ Hinv) in Hseen
                as (j & it & Hj & Hit & Hmid).
              exact (Hfirst j it Hj Hit Hmid).
        -- apply bool_decide_eq_false in Hseen.
           destruct (build_forecast item dt) as [f0|e] eqn:Hb.
           ++ pose proof (loop_inv_add requests_get api_key items pre item dt f0
                            daily seen idxs
                            Hinv Hitem Hdt Hm Hseen Hb) as Hinv'.
              assert (Hc' : completo items (length (pre ++ [item]))
                              (daily ++ [f0])).
              { rewrite Hlen'. eapply completo_next; [exact Hc| |].
                - intros f Hf. apply in_or_app. left. exact Hf.
                - intros item' dt' f (Hit' & Hdt' & _) Hb'.
                  assert (item' = item) as -> by congruence.
                  assert (dt' = dt) as -> by congruence.
                  apply in_or_app. right. left. congruence. }
              destruct (5 <=? length (daily ++ [f0]))%nat eqn:Hfull.
              ** injection Hloop as <-. apply Nat.leb_le in Hfull. lia.
              ** eapply (IH (pre ++ [item]));
                   [exact Hitems'|exact Hinv'|exact Hc'|exact Hloop|exact Hlen].
           ++ destruct (key_value_type e); [|discriminate Hloop].
              eapply (IH (pre ++ [item]));
                [exact Hitems'| | |exact Hloop|exact Hlen].
              ** eapply loop_inv_next; [exact Hinv|exact Hitem|].
                 intros d. rewrite (midday_sample_date item dt d Hdt Hm).
                 rewrite elem_of_union, elem_of_singleton. tauto.
              ** rewrite Hlen'. eapply completo_next; [exact Hc|auto|].
                 intros item' dt' f (Hit' & Hdt' & _) Hb'.
                 assert (item' = item) as -> by congruence.
                 assert (dt' = dt) as -> by congruence.
                 congruence.
      * eapply (IH (pre ++ [item])); [exact Hitems'| | |exact Hloop|exact Hlen].
        -- eapply loop_inv_next; [exact Hinv|exact Hitem|].
           intros d. split; [auto|]. intros [Hd|(dt' & Hdt' & Hm' & _)];
             [exact Hd|]. congruence.
        -- rewrite Hlen'. eapply completo_next; [exact Hc|auto|].
           intros item' dt' f (Hit' & Hdt' & Hm' & _) _.
           assert (item' = item) as -> by congruence. congruence.
    + destruct (key_value_type e); [|discriminate Hloop].
      eapply (IH (pre ++ [item])); [exact Hitems'| | |exact Hloop|exact Hlen].
      * eapply loop_inv_next; [exact Hinv|exact Hitem|].
        intros d. split; [auto|]. intros [Hd|(dt' & Hdt' & _)];
          [exact Hd|]. congruence.
      * rewrite Hlen'. eapply completo_next; [exact Hc|auto|].
        intros item' dt' f (Hit' & Hdt' & _) _.
        assert (item' = item) as -> by congruence. congruence.
Qed.

(** A forecast of fewer than 5 entries misses no date it could serve: the
    first midday sample of every date, when it can be normalised, is in the
    forecast. *)
Theorem get_forecast_completo (lat lon : Q) (data feed : pyval)
    (items : list pyval) (l : list Forecast.t) :
  _make_request requests_get "forecast" (mk_params api_key lat lon)
  = Ok data ->
  getitem data "list" = Ok feed ->
  iterate feed = Ok items ->
  get_forecast requests_get api_key lat lon = Ok l ->
  (length l < 5)%nat ->
  forall i item dt f,
    primera_de_mediodia items i item dt ->
    build_forecast item dt = Ok f ->
    In f l.
Proof.
  intros Hreq Hfeed Hitems Hget Hlen i item dt f Hp Hb.
  pose proof (get_forecast_loop lat lon data feed items l Hreq Hfeed Hitems
                Hget) as Hloop.
  eapply (forecast_loop_completo items items [] [] ∅ [] l);
    try eassumption; try reflexivity.
  - apply loop_inv_init.
  - intros i' item' dt' f' Hi'. cbn in Hi'. lia.
  - destruct Hp as (Hit & _). apply lookup_lt_Some in Hit. exact Hit.
Qed.

(** A date whose first midday sample cannot be normalised is lost: the
    sample has marked the date as seen, so no later sample of that date is
    taken and the forecast has no entry for it. *)
Theorem get_forecast_fecha_perdida (lat lon : Q) (data feed : pyval)
    (items : list pyval) (l : list Forecast.t) :
  _make_request requests_get "forecast" (mk_params api_key lat lon)
  = Ok data ->
  getitem data "list" = Ok feed ->
  iterate feed = Ok items ->
  get_forecast requests_get api_key lat lon = Ok l ->
  forall i item dt e,
    primera_de_mediodia items i item dt ->
    build_forecast item dt = Raise e ->
    forall f, In f l -> Forecast.fecha f <> date_str dt.
Proof.
  intros Hreq Hfeed Hitems Hget i item dt e (Hit & Hdt & Hm & Hfirst) Hb f
    Hf Hfecha.
  pose proof (get_forecast_loop lat lon data feed items l Hreq Hfeed Hitems
                Hget) as Hloop.
  destruct (forecast_loop_inv requests_get api_key items items [] [] ∅ [] l)
    as (_ & pre' & seen' & idxs' & Hinv);
    [reflexivity|cbn; lia|apply loop_inv_init|exact Hloop|].
  pose proof (inv_sourced _ _ _ _ _ Hinv) as Hsrc.
  apply list_elem_of_In, list_elem_of_lookup_1 in Hf as (k & Hk).
  destruct (Forall2_lookup_l _ _ _ _ _ Hsrc Hk)
    as (i' & _ & item' & dt' & Hit' & Hdt' & Hm' & Hb' & Hf' & Hfirst').
  assert (Hdate : date_str dt' = date_str dt) by congruence.
  assert (Hi : i' = i).
  { destruct (lt_eq_lt_dec i' i) as [[Hlt|Heq]|Hgt]; [|exact Heq|].
    - exfalso. apply (Hfirst i' item' Hlt Hit').
      exists dt'. auto.
    - exfalso. apply (Hfirst' i item Hgt Hit).
      exists dt. auto. }
  subst i'. assert (item' = item) as -> by congruence.
  assert (dt' = dt) as -> by congruence. congruence.
Qed.


End ForecastMore.

Lemma service_unreachable_witness :
  @WeatherService.get_current_weather Sample.builtins Sample.proveedor_caido
    "k" 4.6 (-74.1) = Raise RequestException /\
  @WeatherService.get_forecast Sample.builtins Sample.proveedor_caido
    "k" 4.6 (-74.1) = Raise RequestException.
Proof.
  apply (@service_unreachable Sample.builtins Sample.proveedor_caido "k").
  intros endpoint n Hn.
  destruct n as [|[|[|n]]]; [| | |lia].
  - exists Timeout. split; reflexivity.
  - exists HTTPError. split; reflexivity.
  - exists ConnectionError. split; reflexivity.
Defined.

Lemma current_weather_without_wind_witness :
  @WeatherService.get_current_weather Sample.builtins
    (Sample.scripted
       [Sample.ok_response
          (PDict [("main", PDict [("temp", PNum 21.4);
                                  ("humidity", PNum 60)])])])
    "k" 4.6 (-74.1)
  = Raise ValueError.
Proof.
  apply (@current_weather_without_wind Sample.builtins
           (Sample.scripted
              [Sample.ok_response
                 (PDict [("main", PDict [("temp", PNum 21.4);
                                         ("humidity", PNum 60)])])])
           "k" 4.6 (-74.1)
           [("main", PDict [("temp", PNum 21.4); ("humidity", PNum 60)])]
           [("temp", PNum 21.4); ("humidity", PNum 60)] 21.4%Q 60%Q);
    reflexivity.
Defined.

Lemma get_forecast_without_list_witness :
  @WeatherService.get_forecast Sample.builtins
    (Sample.scripted
       [Sample.ok_response (PDict [("cod", PStr "200"); ("list", PList [])])])
    "k" 4.6 (-74.1)
  = Raise ValueError.
Proof.
  apply (@get_forecast_without_list Sample.builtins
           (Sample.scripted
              [Sample.ok_response
                 (PDict [("cod", PStr "200"); ("list", PList [])])])
           "k" 4.6 (-74.1) [("cod", PStr "200"); ("list", PList [])]);
    [reflexivity|].
  right. exists (PList []). split; reflexivity.
Defined.

Lemma get_forecast_sin_mediodia_witness :
  @WeatherService.get_forecast Sample.builtins
    (Sample.scripted
       [Sample.ok_response
          (PDict [("list", PList [Sample.sample 1717405200 18.2 70 2;
                                  Sample.sample 1717426800 23 61 3])])])
    "k" 4.6 (-74.1)
  = Raise ValueError.
Proof.
  apply (@get_forecast_sin_mediodia Sample.builtins
           (Sample.scripted
              [Sample.ok_response
                 (PDict [("list",
                          PList [Sample.sample 1717405200 18.2 70 2;
                                 Sample.sample 1717426800 23 61 3])])])
           "k" 4.6 (-74.1)
           [("list", PList [Sample.sample 1717405200 18.2 70 2;
                            Sample.sample 1717426800 23 61 3])]
           [Sample.sample 1717405200 18.2 70 2;
            Sample.sample 1717426800 23 61 3]);
    [reflexivity|reflexivity|].
  repeat constructor.
Defined.

Lemma get_forecast_completo_witness :
  exists l f,
    @WeatherService.get_forecast Sample.builtins Sample.proveedor_con_hueco
      "k" 4.6 (-74.1) = Ok l /\
    WeatherService.Forecast.fecha f = "2024-06-05" /\ In f l.
Proof.
  eexists. eexists. split; [vm_compute; reflexivity|].
  split; [|eapply (@get_forecast_completo Sample.builtins
                     Sample.proveedor_con_hueco "k" 4.6 (-74.1)
                     (PDict [("list", PList Sample.muestras_con_hueco)])
                     (PList Sample.muestras_con_hueco)
                     Sample.muestras_con_hueco _
                     eq_refl eq_refl eq_refl ltac:(vm_compute; reflexivity)
                     ltac:(cbn; lia) 4%nat
                     (Sample.sample 1717588800 19.5 91 10))].
  - shelve.
  - split; [reflexivity|]. split; [vm_compute; reflexivity|].
    split; [reflexivity|].
    intros j item' Hj Hit' (dt' & Hdt' & Hm' & Hd').
    destruct j as [|[|[|[|j]]]]; [| | | |lia];
      cbn in Hit'; injection Hit' as <-;
      vm_compute in Hdt'; injection Hdt' as <-;
      vm_compute in Hm'; vm_compute in Hd'; congruence.
  - vm_compute. reflexivity.
  Unshelve. reflexivity.
Defined.

Lemma get_forecast_fecha_perdida_witness :
  exists l,
    @WeatherService.get_forecast Sample.builtins Sample.proveedor_con_hueco
      "k" 4.6 (-74.1) = Ok l /\
    forall f, In f l -> WeatherService.Forecast.fecha f <> "2024-06-04".
Proof.
  eexists. split; [vm_compute; reflexivity|].
  eapply (@get_forecast_fecha_perdida Sample.builtins
            Sample.proveedor_con_hueco "k" 4.6 (-74.1)
            (PDict [("list", PList Sample.muestras_con_hueco)])
            (PList Sample.muestras_con_hueco)
            Sample.muestras_con_hueco _
            eq_refl eq_refl eq_refl ltac:(vm_compute; reflexivity)
            2%nat (PDict [("dt", PNum 1717502400)])
            {| date_str := "2024-06-04"; hour := 12; weekday := 1 |}
            KeyError).
  - split; [reflexivity|]. split; [vm_compute; reflexivity|].
    split; [reflexivity|].
    intros j item' Hj Hit' (dt' & Hdt' & Hm' & Hd').
    destruct j as [|[|j]]; [| |lia];
      cbn in Hit'; injection Hit' as <-;
      vm_compute in Hdt'; injection Hdt' as <-;
      vm_compute in Hm'; vm_compute in Hd'; congruence.
  - reflexivity.
Defined.


(** ** Categories and risk *)

Lemma Qgtb_false_not (a b : Q) : Qgtb a b = false -> ~ (b < a)%Q.
Proof. intros Hf. apply Qle_not_lt. apply Qgtb_le. exact Hf. Qed.

Lemma Qltb_false_not (a b : Q) : Qltb a b = false -> ~ (a < b)%Q.
Proof. intros Hf. apply Qle_not_lt. apply Qltb_ge. exact Hf. Qed.

(** A value falls in exactly one of three buckets cut at [lo] and [hi]. *)
Lemma tres_rangos (t lo hi : Q) (a b c : string) :
  (lo < hi)%Q -> a <> b -> a <> c -> b <> c ->
  let r := if Qltb t lo then a else if Qltb t hi then b else c in
  (r = a <-> (t < lo)%Q) /\
  (r = b <-> (lo <= t)%Q /\ (t < hi)%Q) /\
  (r = c <-> (hi <= t)%Q).
Proof.
  intros Hlohi Hab Hac Hbc r. subst r.
  destruct (Qltb t lo) eqn:Elo; [|destruct (Qltb t hi) eqn:Ehi].
  - apply Qltb_lt in Elo.
    assert (Hhi : (t < hi)%Q) by (eapply Qlt_trans; eassumption).
    split; [|split]; split; intros Hx; try congruence; try tauto.
    + destruct Hx as [Hge _]. exfalso. exact (Qle_not_lt _ _ Hge Elo).
    + exfalso. exact (Qle_not_lt _ _ Hx Hhi).
  - apply Qltb_ge in Elo. apply Qltb_lt in Ehi.
    split; [|split]; split; intros Hx; try congruence; try tauto.
    + exfalso. exact (Qle_not_lt _ _ Elo Hx).
    + exfalso. exact (Qle_not_lt _ _ Hx Ehi).
  - apply Qltb_ge in Elo. apply Qltb_ge in Ehi.
    split; [|split]; split; intros Hx; try congruence; try tauto.
    + exfalso. exact (Qle_not_lt _ _ Elo Hx).
    + destruct Hx as [_ Hlt]. exfalso. exact (Qle_not_lt _ _ Ehi Hlt).
Qed.

Lemma Ok_inj {A} (x y : A) : Ok x = Ok y <-> x = y.
Proof. split; [intros [= ->]; reflexivity|intros ->; reflexivity]. Qed.

Section CategoriesMore.
Context `{Builtins}.

(** A humidity is "baja" (low) iff it is below 40, "moderada" iff it is in
    [40, 70), and "alta" (high) iff it is at least 70. *)
Theorem categorizar_humedad_buckets (h : Q) :
  (_categorizar_humedad (PNum h) = Ok "baja" <-> (h < 40)%Q) /\
  (_categorizar_humedad (PNum h) = Ok "moderada"
     <-> (40 <= h)%Q /\ (h < 70)%Q) /\
  (_categorizar_humedad (PNum h) = Ok "alta" <-> (70 <= h)%Q).
Proof.
  rewrite categorizar_humedad_num, !Ok_inj.
  apply (tres_rangos h 40 70 "baja" "moderada" "alta");
    [reflexivity|discriminate..].
Qed.

(** A wind is "suave" (light) iff it is below 10, "moderado" iff it is in
    [10, 20), and "fuerte" (strong) iff it is at least 20. *)
Theorem categorizar_viento_buckets (v : Q) :
  (_categorizar_viento (PNum v) = Ok "suave" <-> (v < 10)%Q) /\
  (_categorizar_viento (PNum v) = Ok "moderado"
     <-> (10 <= v)%Q /\ (v < 20)%Q) /\
  (_categorizar_viento (PNum v) = Ok "fuerte" <-> (20 <= v)%Q).
Proof.
  rewrite categorizar_viento_num, !Ok_inj.
  apply (tres_rangos v 10 20 "suave" "moderado" "fuerte");
    [reflexivity|discriminate..].
Qed.

Lemma float_raises (v : pyval) (e : exn) :
  float v = Raise e -> value_type e = true.
Proof.
  destruct v; cbn; try (intros [= <-]; reflexivity); try discriminate.
  destruct (float_of_str s); [discriminate|intros [= <-]; reflexivity].
Qed.

(** On a value that is not a JSON number (None, a boolean, a string, a
    list, a dict) the three categorisers and the trend reading never raise:
    each answers "no disponible" when [float] rejects the value, and only
    then. *)
Theorem no_disponible (v : pyval) :
  (forall q, v <> PNum q) ->
  ((exists e, float v = Raise e)
   <-> _categorizar_temperatura v = Ok "no disponible") /\
  ((exists e, float v = Raise e)
   <-> _categorizar_humedad v = Ok "no disponible") /\
  ((exists e, float v = Raise e)
   <-> _categorizar_viento v = Ok "no disponible") /\
  ((exists e, float v = Raise e)
   <-> _interpretar_tendencia v = Ok "no disponible") /\
  (exists a b c d,
     _categorizar_temperatura v = Ok a /\ _categorizar_humedad v = Ok b /\
     _categorizar_viento v = Ok c /\ _interpretar_tendencia v = Ok d).
Proof.
  intros Hv.
  unfold _categorizar_temperatura, _categorizar_humedad, _categorizar_viento,
    _interpretar_tendencia, try_except.
  destruct (float v) as [q|e] eqn:Hf; cbn [bind].
  - repeat split;
      try (intros (e & He); discriminate He);
      try (repeat match goal with
             | |- context [if ?b then _ else _] => destruct b
             end; discriminate).
    repeat match goal with
      | |- context [if ?b then _ else _] => destruct b
      end; repeat eexists.
  - rewrite (float_raises v e Hf).
    repeat split; eauto; repeat eexists.
Qed.

End CategoriesMore.

Lemma no_disponible_witness :
  @_categorizar_temperatura Sample.builtins PNone = Ok "no disponible" /\
  @_categorizar_humedad Sample.builtins (PStr "n/d") = Ok "no disponible" /\
  @_categorizar_viento Sample.builtins (PList []) = Ok "no disponible" /\
  @_interpretar_tendencia Sample.builtins (PDict []) = Ok "no disponible".
Proof.
  repeat match goal with |- _ /\ _ => split end.
  - apply (proj1 (@no_disponible Sample.builtins PNone
                    ltac:(intros q; discriminate))).
    exists TypeError. reflexivity.
  - apply (proj1 (proj2 (@no_disponible Sample.builtins (PStr "n/d")
                           ltac:(intros q; discriminate)))).
    exists ValueError. reflexivity.
  - apply (proj1 (proj2 (proj2 (@no_disponible Sample.builtins (PList [])
                                  ltac:(intros q; discriminate))))).
    exists TypeError. reflexivity.
  - apply (proj1 (proj2 (proj2 (proj2
             (@no_disponible Sample.builtins (PDict [])
                ltac:(intros q; discriminate)))))).
    exists TypeError. reflexivity.
Defined.

Lemma Qlt_30_10 (t : Q) : (30 < t)%Q -> (t < 10)%Q -> False.
Proof.
  intros H30 H10. apply (Qlt_irrefl 30).
  eapply Qlt_trans; [exact H30|]. eapply Qlt_trans; [exact H10|reflexivity].
Qed.

Lemma Qlt_80_30 (h : Q) : (80 < h)%Q -> (h < 30)%Q -> False.
Proof.
  intros H80 H30. apply (Qlt_irrefl 80).
  eapply Qlt_trans; [exact H80|]. eapply Qlt_trans; [exact H30|reflexivity].
Qed.

(** The three severe conditions decide the level: the risk is "alto" (high)
    iff at least two of extreme temperature (above 30 or below 10),
    humidity above 80 and wind above 25 hold, and "bajo" (low) iff none of
    them holds. *)
Theorem nivel_de_riesgo (temp hum vnt : Q) :
  let extrema := (30 < temp)%Q \/ (temp < 10)%Q in
  let humeda := (80 < hum)%Q in
  let ventosa := (25 < vnt)%Q in
  exists r,
    _evaluar_riesgo_cultivo temp hum vnt = Ok r /\
    (nivel r = "alto"
     <-> (extrema /\ humeda) \/ (extrema /\ ventosa) \/ (humeda /\ ventosa)) /\
    (nivel r = "bajo" <-> ~ extrema /\ ~ humeda /\ ~ ventosa).
Proof.
  cbv zeta. unfold _evaluar_riesgo_cultivo, try_except.
  destruct (Qgtb temp 30) eqn:Et; [apply Qgtb_gt in Et|apply Qgtb_false_not in Et];
    (destruct (Qltb temp 10) eqn:Et';
       [apply Qltb_lt in Et'|apply Qltb_false_not in Et']);
    (destruct (Qgtb hum 80) eqn:Eh;
       [apply Qgtb_gt in Eh|apply Qgtb_false_not in Eh]);
    destruct (Qltb hum 30);
    (destruct (Qgtb vnt 25) eqn:Ev;
       [apply Qgtb_gt in Ev|apply Qgtb_false_not in Ev]);
    cbn; eexists; (split; [reflexivity|]); cbn;
    (split; split; intros Hx; try discriminate Hx; try reflexivity;
     try tauto).
Qed.

(** The score is the sum of the points of the listed factors (1 for low
    humidity, 2 for each other), and a factor is listed iff its condition
    holds. *)
Theorem factores_de_riesgo (temp hum vnt : Q) :
  exists r,
    _evaluar_riesgo_cultivo temp hum vnt = Ok r /\
    valor r = fold_right Z.add 0 (map peso (factores r)) /\
    (In "temperatura alta" (factores r) <-> (30 < temp)%Q) /\
    (In "temperatura baja" (factores r) <-> (temp < 10)%Q) /\
    (In "humedad alta" (factores r) <-> (80 < hum)%Q) /\
    (In "humedad baja" (factores r) <-> (hum < 30)%Q) /\
    (In "viento fuerte" (factores r) <-> (25 < vnt)%Q).
Proof.
  unfold _evaluar_riesgo_cultivo, try_except.
  destruct (Qgtb temp 30) eqn:Et; [apply Qgtb_gt in Et|apply Qgtb_false_not in Et];
    (destruct (Qltb temp 10) eqn:Et';
       [apply Qltb_lt in Et'|apply Qltb_false_not in Et']);
    (destruct (Qgtb hum 80) eqn:Eh;
       [apply Qgtb_gt in Eh|apply Qgtb_false_not in Eh]);
    (destruct (Qltb hum 30) eqn:Eh';
       [apply Qltb_lt in Eh'|apply Qltb_false_not in Eh']);
    (destruct (Qgtb vnt 25) eqn:Ev;
       [apply Qgtb_gt in Ev|apply Qgtb_false_not in Ev]);
    try (exfalso; exact (Qlt_30_10 temp Et Et'));
    try (exfalso; exact (Qlt_80_30 hum Eh Eh'));
    cbn; eexists; (split; [reflexivity|]); cbn;
    (split; [reflexivity|]);
    repeat match goal with |- _ /\ _ => split end;
    split; intros Hx;
    repeat match goal with
      | Hd : _ \/ _ |- _ => destruct Hd as [Hd|Hd]; try discriminate Hd
      | Hd : _ /\ _ |- _ => destruct Hd
      end;
    try contradiction; try assumption; try tauto.
Qed.

(** ** The trend of a series with points that are not numbers *)

Section TrendMore.
Context `{Builtins}.

Lemma omap_limpiar_filter (datos : list pyval) :
  omap limpiar (List.filter is_number datos) = omap limpiar datos.
Proof.
  induction datos as [|x datos IH]; [reflexivity|].
  destruct x; cbn; rewrite ?IH; reflexivity.
Qed.

(** Points that are not numbers are ignored: the trend of a series is the
    trend of its int and float points. *)
Theorem tendencia_ignora_no_numericos (datos : list pyval) :
  _calcular_tendencia datos
  = _calcular_tendencia (List.filter is_number datos).
Proof.
  unfold _calcular_tendencia, try_except.
  rewrite omap_limpiar_filter.
  pose proof (limpiar_length datos) as Hlen.
  pose proof (List.filter_length_le is_number datos) as Hle.
  destruct (length datos <? 2)%nat eqn:Hd.
  - apply Nat.ltb_lt in Hd.
    destruct (length (List.filter is_number datos) <? 2)%nat eqn:Hf;
      [reflexivity|]. apply Nat.ltb_ge in Hf. lia.
  - destruct (length (List.filter is_number datos) <? 2)%nat eqn:Hf.
    + rewrite Hlen, Hf. reflexivity.
    + reflexivity.
Qed.

End TrendMore.

(** ** The weekly analysis end to end *)

Section AnalysisMore.
Context `{Builtins}.

Lemma generar_resumen_eq (temps hums vnts : list Q) (tt th : Q) :
  _generar_resumen temps hums vnts tt th
  = Ok {| temperatura_promedio := promedio temps;
          humedad_promedio := promedio hums;
          viento_promedio := promedio vnts;
          resumen_tendencias :=
            {| tendencia_temperatura :=
                 if Qltb (Qabs tt) 0.1 then "estable"
                 else if Qgtb tt 0 then "aumentando" else "disminuyendo";
               tendencia_humedad :=
                 if Qltb (Qabs th) 0.1 then "estable"
                 else if Qgtb th 0 then "aumentando" else "disminuyendo" |} |}.
Proof.
  unfold _generar_resumen. rewrite !interpretar_tendencia_num. reflexivity.
Qed.

(** A successful analysis, field by field. *)
Lemma analizar_datos_eq (datos : list pyval) (a : analisis) :
  analizar_datos datos = Ok a ->
  exists st q qh,
    procesar_dias datos estado_inicial = Ok st /\
    _calcular_tendencia (map PNum (temperaturas st)) = Ok q /\
    _calcular_tendencia (map PNum (humedades st)) = Ok qh /\
    a = {| patrones_diarios := patrones st;
           recomendaciones :=
             if Qgtb q 0.5 then [recomendacion_riego] else [];
           alertas :=
             (if existsb (fun h => Qgtb h 80) (humedades st)
              then [alerta_hongos] else [])
             ++ (if existsb (fun v => Qgtb v 30) (vientos st)
                 then [alerta_viento] else []);
           resumen_semanal :=
             Some {| temperatura_promedio := promedio (temperaturas st);
                     humedad_promedio := promedio (humedades st);
                     viento_promedio := promedio (vientos st);
                     resumen_tendencias :=
                       {| tendencia_temperatura :=
                            if Qltb (Qabs q) 0.1 then "estable"
                            else if Qgtb q 0 then "aumentando"
                            else "disminuyendo";
                          tendencia_humedad :=
                            if Qltb (Qabs qh) 0.1 then "estable"
                            else if Qgtb qh 0 then "aumentando"
                            else "disminuyendo" |} |} |}.
Proof.
  unfold analizar_datos. intros Hrun.
  destruct datos as [|dia datos]; [discriminate Hrun|].
  destruct (procesar_dias (dia :: datos) estado_inicial) as [st|e] eqn:Hst;
    [|discriminate Hrun].
  cbn [bind] in Hrun.
  destruct (patrones st) as [|p ps] eqn:Hps; [discriminate Hrun|].
  destruct (generar_recomendaciones_eq
              {| patrones_diarios := p :: ps; recomendaciones := [];
                 alertas := []; resumen_semanal := None |}
              (temperaturas st) (humedades st) (vientos st))
    as (q & Hq & Hrec).
  rewrite Hq, Hrec in Hrun. cbn [bind] in Hrun.
  destruct (calcular_tendencia_total (map PNum (humedades st))) as [qh Hqh].
  rewrite Hqh in Hrun. cbn [bind] in Hrun.
  rewrite generar_resumen_eq in Hrun. cbn [bind] in Hrun.
  injection Hrun as <-. exists st, q, qh. cbn.
  split; [reflexivity|]. split; [exact Hq|]. split; [exact Hqh|].
  rewrite Hps. reflexivity.
Qed.


Variable get_forecast : Q -> Q -> result (list pyval).

Lemma coordenadas_validas (lat lon : Q) :
  (-90 <= lat)%Q -> (lat <= 90)%Q -> (-180 <= lon)%Q -> (lon <= 180)%Q ->
  analizar_patron_semanal get_forecast lat lon
  = (do datos_diarios <- get_forecast lat lon; analizar_datos datos_diarios).
Proof.
  intros H1 H2 H3 H4. unfold analizar_patron_semanal, try_except.
  apply Qle_bool_iff in H1, H2, H3, H4. rewrite H1, H2, H3, H4. cbn.
  destruct (get_forecast lat lon) as [datos|e]; cbn; [|reflexivity].
  destruct (analizar_datos datos); reflexivity.
Qed.

(** Coordinates out of range are a [ValueError], whatever the service
    would have answered. *)
Theorem coordenadas_invalidas (lat lon : Q) :
  ~ ((-90 <= lat)%Q /\ (lat <= 90)%Q /\ (-180 <= lon)%Q /\ (lon <= 180)%Q) ->
  analizar_patron_semanal get_forecast lat lon = Raise ValueError.
Proof.
  intros Hbad. unfold analizar_patron_semanal, try_except.
  destruct (Qle_bool (-90) lat) eqn:E1; [|reflexivity].
  destruct (Qle_bool lat 90) eqn:E2; [|reflexivity].
  destruct (Qle_bool (-180) lon) eqn:E3; [|reflexivity].
  destruct (Qle_bool lon 180) eqn:E4; [|reflexivity].
  exfalso. apply Hbad. rewrite <- !Qle_bool_iff. auto.
Qed.

(** An exception of the service leaves the analysis as it is: a
    [RequestException] stays one and is not turned into a [ValueError]. *)
Theorem error_del_servicio (lat lon : Q) (e : exn) :
  (-90 <= lat)%Q -> (lat <= 90)%Q -> (-180 <= lon)%Q -> (lon <= 180)%Q ->
  get_forecast lat lon = Raise e ->
  analizar_patron_semanal get_forecast lat lon = Raise e.
Proof.
  intros H1 H2 H3 H4 Hget.
  rewrite (coordenadas_validas lat lon H1 H2 H3 H4), Hget. reflexivity.
Qed.

Lemma procesar_dias_ilegibles (datos : list pyval) (st : estado) :
  Forall (fun dia => exists e, leer_dia dia = Raise e /\ value_type e = true)
    datos ->
  procesar_dias datos st = Ok st.
Proof.
  induction 1 as [|dia datos (e & He & Hv) _ IH]; [reflexivity|].
  cbn [procesar_dias]. unfold procesar_dia. rewrite He, Hv. exact IH.
Qed.

(** A forecast without a usable day is a [ValueError]: so is the empty
    forecast, and so is one in which the temperature, humidity or wind of
    every day fails to convert. *)
Theorem sin_dias_utiles (lat lon : Q) (datos : list pyval) :
  (-90 <= lat)%Q -> (lat <= 90)%Q -> (-180 <= lon)%Q -> (lon <= 180)%Q ->
  get_forecast lat lon = Ok datos ->
  Forall (fun dia => exists e, leer_dia dia = Raise e /\ value_type e = true)
    datos ->
  analizar_patron_semanal get_forecast lat lon = Raise ValueError.
Proof.
  intros H1 H2 H3 H4 Hget Hbad.
  rewrite (coordenadas_validas lat lon H1 H2 H3 H4), Hget. cbn [bind].
  unfold analizar_datos. destruct datos as [|dia datos]; [reflexivity|].
  rewrite (procesar_dias_ilegibles (dia :: datos) estado_inicial Hbad).
  reflexivity.
Qed.

(** Irrigation is recommended iff the trend of the temperatures of the
    processed days is above 0.5 degrees per day, and then the summary reads
    the temperature as "aumentando" (increasing). *)
Theorem recomendacion_de_riego (lat lon : Q) (a : analisis) :
  analizar_patron_semanal get_forecast lat lon = Ok a ->
  exists q r,
    _calcular_tendencia (map PNum (map temp_de (patrones_diarios a))) = Ok q /\
    (In recomendacion_riego (recomendaciones a) <-> (0.5 < q)%Q) /\
    resumen_semanal a = Some r /\
    ((0.5 < q)%Q ->
     tendencia_temperatura (resumen_tendencias r) = "aumentando").
Proof.
  intros Hrun.
  destruct (analizar_patron_semanal_datos get_forecast lat lon a Hrun)
    as (datos & _ & Ha).
  destruct (analizar_datos_ok datos a Ha)
    as (st0 & _ & _ & Hst0 & (Ht & _ & _) & _).
  destruct (analizar_datos_eq datos a Ha) as (st & q & qh & Hst & Hq & _ & ->).
  assert (st0 = st) as -> by congruence.
  eexists q, _. cbn. rewrite <- Ht. split; [exact Hq|].
  split; [|split; [reflexivity|]].
  - destruct (Qgtb q 0.5) eqn:Eq.
    + apply Qgtb_gt in Eq. split; [intros _; exact Eq|intros _; left; reflexivity].
    + apply Qgtb_false_not in Eq. split; [intros []|intros Hq'; contradiction].
  - intros Hq'. cbn.
    assert (Hpos : (0 < q)%Q) by (eapply Qlt_trans; [|exact Hq']; reflexivity).
    assert (Habs : Qltb (Qabs q) 0.1 = false).
    { apply Qltb_ge. rewrite (Qabs_pos q (Qlt_le_weak _ _ Hpos)).
      apply Qlt_le_weak. eapply Qlt_trans; [|exact Hq']. reflexivity. }
    rewrite Habs. apply Qgtb_gt in Hpos. rewrite Hpos. reflexivity.
Qed.

End AnalysisMore.

(** ** The analysis of the forecast of the service *)

Section ServiceAnalysis.
Context `{Builtins}.

Variable requests_get :
  string -> WeatherService.params -> nat -> result WeatherService.response.
Variable api_key : string.





End ServiceAnalysis.


Lemma coordenadas_invalidas_witness :
  @analizar_patron_semanal Sample.builtins
    (@servicio Sample.builtins Sample.proveedor "k") 4.6 (-181)
  = Raise ValueError.
Proof.
  apply (@coordenadas_invalidas Sample.builtins
           (@servicio Sample.builtins Sample.proveedor "k") 4.6 (-181)).
  intros (_ & _ & Hlon & _). vm_compute in Hlon. apply Hlon. reflexivity.
Defined.

Lemma error_del_servicio_witness :
  @analizar_patron_semanal Sample.builtins
    (@servicio Sample.builtins Sample.proveedor_caido "k") 4.6 (-74.1)
  = Raise RequestException.
Proof.
  apply (@error_del_servicio Sample.builtins
           (@servicio Sample.builtins Sample.proveedor_caido "k")
           4.6 (-74.1) RequestException);
    try (vm_compute; discriminate).
  vm_compute. reflexivity.
Defined.

Lemma sin_dias_utiles_witness :
  @analizar_patron_semanal Sample.builtins
    (fun _ _ => Ok [PDict [("temperatura", PStr "n/d")];
                    PDict [("temperatura", PNum 20); ("humedad", PNone)]])
    4.6 (-74.1)
  = Raise ValueError.
Proof.
  apply (@sin_dias_utiles Sample.builtins
           (fun _ _ => Ok [PDict [("temperatura", PStr "n/d")];
                           PDict [("temperatura", PNum 20);
                                  ("humedad", PNone)]])
           4.6 (-74.1)
           [PDict [("temperatura", PStr "n/d")];
            PDict [("temperatura", PNum 20); ("humedad", PNone)]]);
    try (vm_compute; discriminate); [reflexivity|].
  constructor; [|constructor; [|constructor]].
  - exists ValueError. split; reflexivity.
  - exists TypeError. split; reflexivity.
Defined.

Lemma recomendacion_de_riego_witness :
  exists a,
    @analizar_patron_semanal Sample.builtins
      (@servicio Sample.builtins Sample.proveedor "k") 4.6 (-74.1) = Ok a /\
    exists q r,
      @_calcular_tendencia Sample.builtins
        (map PNum (map temp_de (patrones_diarios a))) = Ok q /\
      (In recomendacion_riego (recomendaciones a) <-> (0.5 < q)%Q) /\
      resumen_semanal a = Some r.
Proof.
  eexists.
  match goal with |- ?run = Ok ?a /\ _ =>
    assert (Hrun : run = Ok a) by (vm_compute; reflexivity);
    destruct (@recomendacion_de_riego Sample.builtins
                (@servicio Sample.builtins Sample.proveedor "k")
                4.6 (-74.1) a Hrun) as (q & r & Hq & Hiff & Hr & _)
  end.
  split; [exact Hrun|]. exists q, r. auto.
Defined.

(** ** The endpoints of main.py *)

Section MainEndpoints.
Import Http.
Context `{Builtins}.

Variable requests_get :
  string -> WeatherService.params -> nat -> result WeatherService.response.
Variable api_key : string.
Variable csv : option (list Main.fila).

Lemma validate_bounds (lat lon : Q) (loc : Main.LocationRequest) :
  Main.validate lat lon = Some loc ->
  Main.lat loc = lat /\ Main.lon loc = lon /\
  (-90 <= lat)%Q /\ (lat <= 90)%Q /\ (-180 <= lon)%Q /\ (lon <= 180)%Q.
Proof.
  unfold Main.validate.
  destruct (Qle_bool (-90) lat) eqn:E1; [|discriminate].
  destruct (Qle_bool lat 90) eqn:E2; [|discriminate].
  destruct (Qle_bool (-180) lon) eqn:E3; [|discriminate].
  destruct (Qle_bool lon 180) eqn:E4; [|discriminate].
  cbn. intros [= <-]. cbn. rewrite <- !Qle_bool_iff. auto 10.
Qed.

Lemma get_forecast_unreachable (lat lon : Q) :
  (forall n, (n < 3)%nat ->
     exists e,
       WeatherService.intento requests_get
         (WeatherService.base_url ++ "/" ++ "forecast")%string
         (WeatherService.mk_params api_key lat lon) n = Raise e /\
       is_RequestException e = true) ->
  WeatherService.get_forecast requests_get api_key lat lon
  = Raise RequestException.
Proof.
  intros Hfail. unfold WeatherService.get_forecast.
  rewrite make_request_exhausted by exact Hfail. reflexivity.
Qed.

Lemma analizar_servicio (lat lon : Q) :
  (-90 <= lat)%Q -> (lat <= 90)%Q -> (-180 <= lon)%Q -> (lon <= 180)%Q ->
  analizar_patron_semanal (servicio requests_get api_key) lat lon
  = (do l <- WeatherService.get_forecast requests_get api_key lat lon;
     analizar_datos (map WeatherService.Forecast.to_dict l)).
Proof.
  intros H1 H2 H3 H4. rewrite (coordenadas_validas _ lat lon H1 H2 H3 H4).
  unfold servicio.
  destruct (WeatherService.get_forecast requests_get api_key lat lon);
    reflexivity.
Qed.


(** While the provider cannot be reached (three attempts that end in a
    timeout, an error status or a transport error) the three weather
    endpoints answer 503. *)
Theorem endpoints_503 (lat lon : Q) (loc : Main.LocationRequest) :
  Main.validate lat lon = Some loc ->
  (forall endpoint n, (n < 3)%nat ->
     exists e,
       WeatherService.intento requests_get
         (WeatherService.base_url ++ "/" ++ endpoint)%string
         (WeatherService.mk_params api_key lat lon) n = Raise e /\
       is_RequestException e = true) ->
  Main.get_current_weather requests_get api_key loc
  = Raised (HTTPException 503) /\
  Main.get_weather_forecast requests_get api_key loc
  = Raised (HTTPException 503) /\
  Main.get_weekly_analysis requests_get api_key loc
  = Raised (HTTPException 503).
Proof.
  intros Hval Hfail.
  destruct (validate_bounds lat lon loc Hval)
    as (Hlat & Hlon & H1 & H2 & H3 & H4).
  unfold Main.get_current_weather, Main.get_weather_forecast,
    Main.get_weekly_analysis. rewrite Hlat, Hlon.
  rewrite (analizar_servicio lat lon H1 H2 H3 H4).
  rewrite (get_forecast_unreachable lat lon)
    by (intros n Hn; apply Hfail; exact Hn).
  unfold WeatherService.get_current_weather.
  rewrite make_request_exhausted by (intros n Hn; apply Hfail; exact Hn).
  repeat split; reflexivity.
Qed.

(** An answer of the provider without a forecast list makes the forecast
    and the weekly endpoints answer 422. *)
Theorem endpoints_422 (lat lon : Q) (loc : Main.LocationRequest)
    (d : list (string * pyval)) :
  Main.validate lat lon = Some loc ->
  WeatherService._make_request requests_get "forecast"
    (WeatherService.mk_params api_key lat lon) = Ok (PDict d) ->
  assoc "list" d = None ->
  Main.get_weather_forecast requests_get api_key loc
  = Raised (HTTPException 422) /\
  Main.get_weekly_analysis requests_get api_key loc
  = Raised (HTTPException 422).
Proof.
  intros Hval Hreq Hlist.
  destruct (validate_bounds lat lon loc Hval)
    as (Hlat & Hlon & H1 & H2 & H3 & H4).
  assert (Hget : WeatherService.get_forecast requests_get api_key lat lon
                 = Raise ValueError).
  { unfold WeatherService.get_forecast. rewrite Hreq.
    cbn [bind contains]. rewrite Hlist. reflexivity. }
  unfold Main.get_weather_forecast, Main.get_weekly_analysis.
  rewrite Hlat, Hlon, (analizar_servicio lat lon H1 H2 H3 H4), Hget.
  split; reflexivity.
Qed.

(** A crop the table does not have is a 404 for the irrigation endpoint
    but a 500 for the status and the pest-risk endpoints, whose 404 is
    raised inside the [try] and caught by its [except Exception]; a missing
    file is a 404 and two 500s in the same way. *)
Theorem cultivo_desconocido (cultivo : string) :
  match csv with
  | Some df => Main.del_cultivo df cultivo = []
  | None => True
  end ->
  Main.get_irrigation_needs csv cultivo = Raised (HTTPException 404) /\
  Main.get_crop_status csv cultivo = Raised (HTTPException 500) /\
  Main.get_pest_risk csv cultivo = Raised (HTTPException 500).
Proof.
  unfold Main.get_irrigation_needs, Main.get_crop_status, Main.get_pest_risk,
    Main.read_csv.
  destruct csv as [df|]; cbn.
  - intros ->. repeat split; reflexivity.
  - intros _. repeat split; reflexivity.
Qed.

(** The irrigation endpoint lists the rows of the crop in the order of the
    table, one record per row, and the status endpoint counts them: the
    total is the number of weekly records and the number of rows of the
    crop. *)
Theorem filas_del_cultivo (df : list Main.fila) (cultivo : string) :
  csv = Some df ->
  Main.del_cultivo df cultivo <> [] ->
  Main.get_irrigation_needs csv cultivo
  = Return (map (fun row => {| Main.dia := Main.Dia row;
                               Main.necesidad_riego :=
                                 Main.Necesidad_Riego row |})
              (Main.del_cultivo df cultivo)) /\
  exists st,
    Main.get_crop_status csv cultivo = Return st /\
    Main.total_registros st = length (Main.del_cultivo df cultivo) /\
    length (Main.datos_semanales st) = Main.total_registros st /\
    map Main.ds_Estado_Cultivo (Main.datos_semanales st)
    = map Main.Estado_Cultivo (Main.del_cultivo df cultivo).
Proof.
  intros -> Hne.
  unfold Main.get_irrigation_needs, Main.get_crop_status, Main.read_csv.
  cbn. destruct (Main.del_cultivo df cultivo) as [|row rows] eqn:Hrows;
    [contradiction Hne; reflexivity|].
  split; [reflexivity|]. eexists. split; [reflexivity|]. cbn.
  rewrite length_map, map_map. cbn. repeat split.
Qed.

End MainEndpoints.

(** ** The crop table *)

Lemma value_counts_lookup (l : list string) (s : string) :
  Main.value_counts l !! s
  = match length (List.filter (String.eqb s) l) with
    | O => None
    | S n => Some (S n)
    end.
Proof.
  induction l as [|x l IH]; [reflexivity|].
  cbn [Main.value_counts fold_right List.filter].
  fold (Main.value_counts l). rewrite lookup_insert.
  destruct (decide (x = s)) as [->|Hne].
  - rewrite String.eqb_refl. cbn [length]. rewrite IH.
    destruct (length (List.filter (String.eqb s) l)); reflexivity.
  - assert (Hneq : String.eqb s x = false).
    { apply String.eqb_neq. congruence. }
    rewrite Hneq. exact IH.
Qed.

Lemma quinto_lt (t c : Z) :
  (inject_Z t / 5 < inject_Z (2 * c + 1) / 2)%Q <-> t <= 5 * c + 2.
Proof.
  unfold Qlt, Qdiv, Qmult, Qinv, inject_Z. cbn. lia.
Qed.

Lemma quinto_ge (t c : Z) :
  (inject_Z (2 * c + 1) / 2 <= inject_Z t / 5)%Q <-> 5 * c + 3 <= t.
Proof.
  unfold Qle, Qdiv, Qmult, Qinv, inject_Z. cbn. lia.
Qed.

Section CropTable.
Import Http.

Variable csv : option (list Main.fila).

(** The status endpoint counts the rows of the crop by state: a state is a
    key of [estados] iff some row of the crop has it, and its value is the
    number of those rows. *)
Theorem estados_del_cultivo (df : list Main.fila) (cultivo : string) :
  csv = Some df ->
  Main.del_cultivo df cultivo <> [] ->
  exists st,
    Main.get_crop_status csv cultivo = Return st /\
    forall s,
      default 0%nat (Main.estados st !! s)
      = length (List.filter (String.eqb s)
                  (map Main.Estado_Cultivo (Main.del_cultivo df cultivo))) /\
      (Main.estados st !! s = None
       <-> ~ In s (map Main.Estado_Cultivo (Main.del_cultivo df cultivo))).
Proof.
  intros -> Hne. unfold Main.get_crop_status, Main.read_csv. cbn.
  destruct (Main.del_cultivo df cultivo) as [|row rows] eqn:Hrows;
    [contradiction Hne; reflexivity|].
  eexists. split; [reflexivity|]. intros s. cbn [Main.estados].
  set (l := map Main.Estado_Cultivo (row :: rows)).
  rewrite value_counts_lookup.
  destruct (List.filter (String.eqb s) l) as [|x xs] eqn:Hf; cbn [length].
  - split; [reflexivity|]. split; [|reflexivity]. intros _ Hin.
    assert (Hin' : In s (List.filter (String.eqb s) l)).
    { apply List.filter_In. split; [exact Hin|apply String.eqb_refl]. }
    rewrite Hf in Hin'. contradiction.
  - split; [reflexivity|]. split; [discriminate|]. intros Hnot. exfalso.
    apply Hnot.
    assert (Hx : In x (List.filter (String.eqb s) l))
      by (rewrite Hf; left; reflexivity).
    apply List.filter_In in Hx as [Hx Heq].
    apply String.eqb_eq in Heq. subst x. exact Hx.
Qed.

(** The pest-risk level follows from the sum of the five rounded averages:
    "Bajo" iff the sum is at most 12, "Medio" iff it is 13 to 17, "Alto"
    iff it is 18 or more. *)
Theorem nivel_de_plagas (df : list Main.fila) (cultivo : string) :
  csv = Some df ->
  Main.del_cultivo df cultivo <> [] ->
  exists r,
    Main.get_pest_risk csv cultivo = Return r /\
    let total :=
      Main.r_Insectos (Main.riesgos r) + Main.r_Hongos (Main.riesgos r)
      + Main.r_Bacterias (Main.riesgos r) + Main.r_Virus (Main.riesgos r)
      + Main.r_Malezas (Main.riesgos r) in
    (Main.nivel_riesgo r = "Bajo" <-> total <= 12) /\
    (Main.nivel_riesgo r = "Medio" <-> 13 <= total <= 17) /\
    (Main.nivel_riesgo r = "Alto" <-> 18 <= total).
Proof.
  intros -> Hne. unfold Main.get_pest_risk, Main.read_csv. cbn.
  destruct (Main.del_cultivo df cultivo) as [|row rows] eqn:Hrows;
    [contradiction Hne; reflexivity|].
  eexists. split; [reflexivity|].
  cbn [Main.riesgos Main.nivel_riesgo Main.r_Insectos Main.r_Hongos
       Main.r_Bacterias Main.r_Virus Main.r_Malezas].
  cbv zeta.
  set (total := (Main.round_mean _ + Main.round_mean _ + Main.round_mean _
                 + Main.round_mean _ + Main.round_mean _)%Z).
  destruct (tres_rangos (inject_Z total / 5) 2.5 3.5 "Bajo" "Medio" "Alto")
    as (Hb & Hm & Ha); [reflexivity|discriminate..|].
  cbv zeta in Hb, Hm, Ha. rewrite Hb, Hm, Ha.
  pose proof (quinto_lt total 2) as L2. pose proof (quinto_lt total 3) as L3.
  pose proof (quinto_ge total 2) as G2. pose proof (quinto_ge total 3) as G3.
  change (inject_Z (2 * 2 + 1) / 2)%Q with (5 / 2)%Q in L2, G2.
  change (inject_Z (2 * 3 + 1) / 2)%Q with (7 / 2)%Q in L3, G3.
  assert (E25 : (2.5 == 5 / 2)%Q) by reflexivity.
  assert (E35 : (3.5 == 7 / 2)%Q) by reflexivity.
  rewrite E25, E35, L2, L3, G2, G3. lia.
Qed.

End CropTable.

(** ** The routes of routes/clima.py *)

Section Routes.
Import Http.
Context `{Builtins}.

Variable requests_get :
  string -> WeatherService.params -> nat -> result WeatherService.response.
Variable key : string.

(** An answer of the provider with a status other than 200 is a 500 on
    both routes: the [HTTPException] that carries the provider's status is
    raised inside the [try] and caught by its [except Exception]. *)
Theorem estado_del_proveedor (coords : RutasClima.Coordenadas)
    (ra rf : WeatherService.response) :
  requests_get (RutasClima.BASE_URL ++ "/weather")%string
    (RutasClima.mk_params key coords) 0 = Ok ra ->
  requests_get (RutasClima.BASE_URL ++ "/forecast")%string
    (RutasClima.mk_params key coords) 0 = Ok rf ->
  WeatherService.status_code ra <> 200 ->
  WeatherService.status_code rf <> 200 ->
  RutasClima.obtener_clima_actual requests_get key coords
  = Raised (HTTPException 500) /\
  RutasClima.obtener_pronostico_horas requests_get key coords
  = Raised (HTTPException 500).
Proof.
  intros Ha Hf Hsa Hsf.
  unfold RutasClima.obtener_clima_actual, RutasClima.obtener_pronostico_horas.
  rewrite Ha, Hf. cbn [lift obind].
  apply Z.eqb_neq in Hsa, Hsf. rewrite Hsa, Hsf. split; reflexivity.
Qed.


Lemma pronostico_horas_ok (items : list pyval) :
  forall acc l,
    RutasClima.pronostico_horas items acc = Ok l ->
    exists hs,
      l = acc ++ hs /\
      Forall2 (fun item h => RutasClima.pronostico_hora item = Ok h) items hs.
Proof.
  induction items as [|item items IH]; intros acc l Hrun.
  - cbn in Hrun. injection Hrun as <-. exists []. rewrite app_nil_r.
    split; [reflexivity|constructor].
  - cbn [RutasClima.pronostico_horas] in Hrun.
    destruct (RutasClima.pronostico_hora item) as [h|e] eqn:Hh;
      [|discriminate Hrun].
    cbn [bind] in Hrun. destruct (IH _ _ Hrun) as (hs & -> & Hall).
    exists (h :: hs). rewrite <- app_assoc. split; [reflexivity|].
    constructor; assumption.
Qed.

Lemma pronostico_horas_falla (items : list pyval) :
  forall acc,
    Exists (fun item => exists e, RutasClima.pronostico_hora item = Raise e)
      items ->
    exists e, RutasClima.pronostico_horas items acc = Raise e.
Proof.
  induction items as [|item items IH]; intros acc Hex.
  - inversion Hex.
  - cbn [RutasClima.pronostico_horas].
    destruct (RutasClima.pronostico_hora item) as [h|e] eqn:Hh.
    + cbn [bind]. apply IH. inversion Hex as [? ? (e & He)|]; subst;
        [congruence|assumption].
    + exists e. reflexivity.
Qed.

(** The hourly forecast is made of the first 8 samples of the feed, one
    entry per sample and in their order; samples after the eighth are not
    looked at, and one sample among the first 8 that cannot be read turns
    the whole answer into a 500. *)
Theorem pronostico_de_8_horas (coords : RutasClima.Coordenadas)
    (r : WeatherService.response) (items : list pyval) :
  requests_get (RutasClima.BASE_URL ++ "/forecast")%string
    (RutasClima.mk_params key coords) 0 = Ok r ->
  WeatherService.status_code r = 200 ->
  getitem (WeatherService.json r) "list" = Ok (PList items) ->
  (forall l,
     RutasClima.obtener_pronostico_horas requests_get key coords = Return l ->
     length l = Nat.min 8 (length items) /\
     Forall2 (fun item h => RutasClima.pronostico_hora item = Ok h)
       (firstn 8 items) l) /\
  (Exists (fun item => exists e, RutasClima.pronostico_hora item = Raise e)
     (firstn 8 items) ->
   RutasClima.obtener_pronostico_horas requests_get key coords
   = Raised (HTTPException 500)) /\
  (Forall (fun item => exists h, RutasClima.pronostico_hora item = Ok h)
     (firstn 8 items) ->
   exists l,
     RutasClima.obtener_pronostico_horas requests_get key coords = Return l).
Proof.
  intros Hr Hs Hlist. unfold RutasClima.obtener_pronostico_horas.
  rewrite Hr. cbn [lift obind]. rewrite Hs. cbn [Z.eqb Pos.eqb negb].
  rewrite Hlist. cbn [bind RutasClima.primeros_8].
  split; [|split].
  - intros l Hrun.
    destruct (RutasClima.pronostico_horas (firstn 8 items) [])
      as [l'|e] eqn:Hl; [|discriminate Hrun].
    cbn in Hrun. injection Hrun as <-.
    destruct (pronostico_horas_ok _ _ _ Hl) as (hs & -> & Hall).
    cbn [app]. split; [|exact Hall].
    apply Forall2_length in Hall. rewrite <- Hall. apply length_firstn.
  - intros Hex.
    destruct (pronostico_horas_falla (firstn 8 items) [] Hex) as (e & ->).
    reflexivity.
  - intros Hall.
    destruct (RutasClima.pronostico_horas (firstn 8 items) [])
      as [l'|e] eqn:Hl; [exists l'; reflexivity|].
    exfalso. revert Hl. generalize (@nil RutasClima.PronosticoHora).
    induction Hall as [|item rest (h & Hh) _ IH]; intros acc Hl.
    + discriminate Hl.
    + cbn [RutasClima.pronostico_horas] in Hl. rewrite Hh in Hl.
      cbn [bind] in Hl. exact (IH _ Hl).
Qed.

End Routes.


Lemma endpoints_503_witness :
  exists loc,
    Main.validate 4.6 (-74.1) = Some loc /\
    @Main.get_current_weather Sample.builtins Sample.proveedor_caido "k" loc
    = Http.Raised (Http.HTTPException 503) /\
    @Main.get_weekly_analysis Sample.builtins Sample.proveedor_caido "k" loc
    = Http.Raised (Http.HTTPException 503).
Proof.
  eexists. split; [reflexivity|].
  destruct (@endpoints_503 Sample.builtins Sample.proveedor_caido "k"
              4.6 (-74.1) _ eq_refl) as (Hc & _ & Hw).
  - intros endpoint n Hn. destruct n as [|[|[|n]]]; [| | |lia].
    + exists Timeout. split; reflexivity.
    + exists HTTPError. split; reflexivity.
    + exists ConnectionError. split; reflexivity.
  - split; assumption.
Defined.

Lemma endpoints_422_witness :
  exists loc,
    Main.validate 4.6 (-74.1) = Some loc /\
    @Main.get_weather_forecast Sample.builtins
      (Sample.scripted
         [Sample.ok_response (PDict [("cod", PStr "404");
                                     ("message", PStr "city not found")])])
      "k" loc
    = Http.Raised (Http.HTTPException 422).
Proof.
  eexists. split; [reflexivity|].
  apply (@endpoints_422 Sample.builtins
           (Sample.scripted
              [Sample.ok_response
                 (PDict [("cod", PStr "404");
                         ("message", PStr "city not found")])])
           "k" 4.6 (-74.1) _
           [("cod", PStr "404"); ("message", PStr "city not found")]);
    reflexivity.
Defined.

Lemma cultivo_desconocido_witness :
  Main.get_irrigation_needs (Some Muestra.tabla) "Quinua"
  = Http.Raised (Http.HTTPException 404) /\
  Main.get_crop_status (Some Muestra.tabla) "Quinua"
  = Http.Raised (Http.HTTPException 500) /\
  Main.get_pest_risk (Some Muestra.tabla) "Quinua"
  = Http.Raised (Http.HTTPException 500).
Proof.
  apply (cultivo_desconocido (Some Muestra.tabla) "Quinua"). reflexivity.
Defined.

Lemma filas_del_cultivo_witness :
  Main.get_irrigation_needs (Some Muestra.tabla) "Papa"
  = Http.Return [{| Main.dia := PNum 1; Main.necesidad_riego := 30%Q |};
                 {| Main.dia := PNum 2; Main.necesidad_riego := 25%Q |};
                 {| Main.dia := PNum 3; Main.necesidad_riego := 40%Q |}].
Proof.
  apply (filas_del_cultivo (Some Muestra.tabla) Muestra.tabla "Papa");
    [reflexivity|discriminate].
Defined.

Lemma estados_del_cultivo_witness :
  exists st,
    Main.get_crop_status (Some Muestra.tabla) "Papa" = Http.Return st /\
    default 0%nat (Main.estados st !! "Bueno") = 2%nat /\
    default 0%nat (Main.estados st !! "Malo") = 0%nat.
Proof.
  destruct (estados_del_cultivo (Some Muestra.tabla) Muestra.tabla "Papa"
              eq_refl ltac:(discriminate)) as (st & Hst & Hcount).
  exists st. split; [exact Hst|].
  split; [rewrite (proj1 (Hcount "Bueno"))|rewrite (proj1 (Hcount "Malo"))];
    reflexivity.
Defined.

Lemma nivel_de_plagas_witness :
  exists r,
    Main.get_pest_risk (Some Muestra.tabla) "Trigo" = Http.Return r /\
    Main.nivel_riesgo r = "Alto".
Proof.
  destruct (nivel_de_plagas (Some Muestra.tabla) Muestra.tabla "Trigo"
              eq_refl ltac:(discriminate)) as (r & Hr & _ & _ & Halto).
  exists r. split; [exact Hr|].
  apply Halto. vm_compute in Hr. injection Hr as <-. vm_compute.
  discriminate.
Defined.

Lemma estado_del_proveedor_witness :
  RutasClima.obtener_clima_actual
    (Sample.scripted [Sample.status_response 401]) "k"
    {| RutasClima.lat := 4.6; RutasClima.lon := -74.1 |}
  = Http.Raised (Http.HTTPException 500) /\
  @RutasClima.obtener_pronostico_horas Sample.builtins
    (Sample.scripted [Sample.status_response 401]) "k"
    {| RutasClima.lat := 4.6; RutasClima.lon := -74.1 |}
  = Http.Raised (Http.HTTPException 500).
Proof.
  apply (@estado_del_proveedor Sample.builtins
           (Sample.scripted [Sample.status_response 401]) "k"
           {| RutasClima.lat := 4.6; RutasClima.lon := -74.1 |}
           {| WeatherService.status_code := 401;
              WeatherService.json := PDict [] |}
           {| WeatherService.status_code := 401;
              WeatherService.json := PDict [] |});
    try reflexivity; discriminate.
Defined.


Lemma pronostico_de_8_horas_witness :
  exists l,
    @RutasClima.obtener_pronostico_horas Sample.builtins
      (Sample.scripted
         [Sample.ok_response (PDict [("list", PList Muestra.nueve_muestras)])])
      "k" {| RutasClima.lat := 4.6; RutasClima.lon := -74.1 |}
    = Http.Return l /\
    length l = 8%nat.
Proof.
  eexists. split; [vm_compute; reflexivity|].
  match goal with |- length ?l = _ =>
    apply (proj1 (@pronostico_de_8_horas Sample.builtins
                    (Sample.scripted
                       [Sample.ok_response
                          (PDict [("list", PList Muestra.nueve_muestras)])])
                    "k" {| RutasClima.lat := 4.6; RutasClima.lon := -74.1 |}
                    {| WeatherService.status_code := 200;
                       WeatherService.json :=
                         PDict [("list", PList Muestra.nueve_muestras)] |}
                    Muestra.nueve_muestras eq_refl eq_refl eq_refl) l)
  end.
  vm_compute. reflexivity.
Defined.
